(** * GetStack templates server: a model of [server.py] and its properties

    The two tools of the server, [get_templates] and [use_template], are
    embedded as functions over an explicit world: the host file system, the
    ephemeral clone directory, and a trace of the remote requests issued.
    What the libraries answer (HTTP responses, the clone, path expansion,
    refusals of the operating system) is supplied by an environment record,
    so that every statement below is quantified over all such answers. *)

From Stdlib Require Import ZArith Ascii.
From stdpp Require Import base option list strings pretty gmap fin_maps.

Set Warnings "-register-all".

Local Open Scope Z_scope.

(** ** Python values *)

(** The values that cross the tool boundary: parsed JSON on the way in,
    result dictionaries on the way out.  A dictionary keeps its insertion
    order and is read by first match; floats are kept by their text. *)
Inductive value : Type :=
  | VNone
  | VBool (b : bool)
  | VInt (n : Z)
  | VFloat (repr : string)
  | VStr (s : string)
  | VList (items : list value)
  | VDict (fields : list (string * value)).

Fixpoint assoc {A : Type} (k : string) (l : list (string * A)) : option A :=
  match l with
  | [] => None
  | (k', v) :: rest => if String.eqb k k' then Some v else assoc k rest
  end.

Definition dict_get (k : string) (v : value) : option value :=
  match v with
  | VDict fields => assoc k fields
  | _ => None
  end.

Definition type_name (v : value) : string :=
  match v with
  | VNone => "NoneType"
  | VBool _ => "bool"
  | VInt _ => "int"
  | VFloat _ => "float"
  | VStr _ => "str"
  | VList _ => "list"
  | VDict _ => "dict"
  end.

(** [v == s] for a string literal [s]. *)
Definition eq_str (v : value) (s : string) : bool :=
  match v with
  | VStr t => String.eqb t s
  | _ => false
  end.

(** ** Exceptions *)

(** The classes of the errors the two tools can meet; all of them derive
    from [Exception].  [RequestException] is the base class of the errors
    of the HTTP client. *)
Inductive exn_class : Type :=
  | RequestException
  | OSError
  | GitError
  | ValueError
  | TypeError
  | AttributeError
  | KeyError
  | RuntimeError.

Record exn : Type := MkExn { exn_cls : exn_class; exn_str : string }.

Definition is_request_exception (e : exn) : bool :=
  match exn_cls e with
  | RequestException => true
  | _ => false
  end.

Inductive outcome (A : Type) : Type :=
  | Ret (a : A)
  | Raise (e : exn).
Arguments Ret {A} a.
Arguments Raise {A} e.

(** ** Paths *)

Inductive platform : Type := Posix | Windows.

Definition sep (pf : platform) : string :=
  match pf with
  | Posix => "/"
  | Windows => "\"
  end.

Definition is_sep (pf : platform) (c : ascii) : bool :=
  match pf with
  | Posix => Ascii.eqb c "/"%char
  | Windows => Ascii.eqb c "/"%char || Ascii.eqb c "\"%char
  end.

Fixpoint join (s : string) (parts : list string) : string :=
  match parts with
  | [] => ""
  | [p] => p
  | p :: rest => p +:+ s +:+ join s rest
  end.

(** [str(p)] for a relative path: its parts joined by the separator of
    the platform's path flavour. *)
Definition str_rel (pf : platform) (parts : list string) : string :=
  join (sep pf) parts.

(** An absolute path is the tuple [Path.parts]: the anchor first
    (["/"], or a drive such as ["C:\"]), then the names. *)
Definition str_abs (pf : platform) (parts : list string) : string :=
  match parts with
  | [] => ""
  | anchor :: names => anchor +:+ join (sep pf) names
  end.

Fixpoint segments (pf : platform) (s : string) : list string :=
  match s with
  | EmptyString => [""]
  | String c s' =>
      if is_sep pf c then "" :: segments pf s'
      else match segments pf s' with
           | [] => [String c ""]
           | x :: xs => String c x :: xs
           end
  end.

Definition real_segment (s : string) : bool :=
  negb (String.eqb s "") && negb (String.eqb s ".").

(** The parts of a relative name: empty and ["."] segments are dropped,
    [".."] is kept, as pathlib does. *)
Definition name_parts (pf : platform) (s : string) : list string :=
  List.filter real_segment (segments pf s).

Definition anchored (pf : platform) (s : string) : bool :=
  match s with
  | EmptyString => false
  | String c s' =>
      is_sep pf c ||
      match pf, s' with
      | Windows, String ":"%char _ => true
      | _, _ => false
      end
  end.

(** ** Remote answers *)

Record response : Type := MkResponse {
  status_code : Z;
  json : outcome value
}.

(** ** File trees *)

Record file_data : Type := MkFile {
  content : list Byte.byte;
  mode : Z;
  mtime : Z
}.

(** The clone: a tree of regular files and directories, each directory
    listing its entries in the order [scandir] enumerates them. *)
Inductive node : Type :=
  | File (d : file_data)
  | Dir (entries : list (string * node)).

Definition is_dir (n : node) : bool :=
  match n with Dir _ => true | File _ => false end.

Definition is_file (n : node) : bool :=
  match n with File _ => true | Dir _ => false end.

Fixpoint lookup_node (p : list string) (n : node) : option node :=
  match p with
  | [] => Some n
  | x :: p' =>
      match n with
      | File _ => None
      | Dir entries =>
          match assoc x entries with
          | Some c => lookup_node p' c
          | None => None
          end
      end
  end.

(** The host file system: what each absolute path names. *)
Inductive entry : Type :=
  | F (d : file_data)
  | D.

Inductive clone_result : Type :=
  | Cloned (tree : node)
  | CloneFailed (partial : node) (e : exn).

Inductive os_error : Type :=
  | FileExistsError
  | NotADirectoryError
  | IsADirectoryError
  | PermissionError.

(** A copy that breaks off: the bytes written so far, the time, the
    error raised. *)
Record interruption : Type := MkInterruption {
  written : nat;
  at_time : Z;
  cause : exn
}.

(** ** The environment *)

Record env : Type := MkEnv {
  (** path flavour of the host *)
  host : platform;
  (** [requests.get(url)] *)
  http_get : string -> outcome response;
  (** [Path(s).expanduser().absolute()], as [Path.parts] *)
  expand_absolute : string -> outcome (list string);
  (** the operating system refusing to create a directory or to open a
      path for writing, for a reason other than the mode of the file
      there (read-only device, permissions of the directory) *)
  io_fault : list string -> option exn;
  (** text of an error of the operating system *)
  strerror : os_error -> list string -> string;
  (** [tempfile.TemporaryDirectory()] failing to create its directory *)
  mkdtemp_fault : option exn;
  (** [Repo.clone_from(GITHUB_REPO_URL, temp_path, depth=1)] *)
  clone_from : clone_result;
  (** what [temp_path / name] shows for a name that leaves the clone
      directory (an anchored name, or one with a dot-dot segment) *)
  host_view : string -> option node;
  (** the process may write a file whatever its mode *)
  privileged : bool;
  (** permission bits of a file the process creates *)
  create_mode : Z;
  (** the copy to a path breaking off after some bytes (full device,
      input or output error) *)
  copy_interrupted : list string -> option interruption
}.

(** ** The world *)

Inductive event : Type :=
  | HttpGet (url : string)
  | GitClone (url : string) (depth : Z).

Record world : Type := MkWorld {
  fs : gmap (list string) entry;
  (** the ephemeral clone directory, [None] while it does not exist; its
      name is fresh, so no path of [fs] reaches into it *)
  workspace : option node;
  trace : list event
}.

Definition set_fs (m : gmap (list string) entry) (w : world) : world :=
  MkWorld m (workspace w) (trace w).

Definition set_workspace (t : option node) (w : world) : world :=
  MkWorld (fs w) t (trace w).

Definition log (ev : event) (w : world) : world :=
  MkWorld (fs w) (workspace w) (trace w ++ [ev]).

(** ** Constants *)

Definition GITHUB_REPO_OWNER : string := "coderroleggg".
Definition GITHUB_REPO_NAME : string := "getstack-templates".
Definition GITHUB_API_URL : string :=
  "https://api.github.com/repos/" +:+ GITHUB_REPO_OWNER +:+ "/" +:+ GITHUB_REPO_NAME.
Definition GITHUB_REPO_URL : string :=
  "https://github.com/" +:+ GITHUB_REPO_OWNER +:+ "/" +:+ GITHUB_REPO_NAME +:+ ".git".

(** ** Result dictionaries *)

Definition failure (msg : string) : value :=
  VDict [("success", VBool false); ("error", VStr msg)].

(** ** get_templates *)

(** [for item in contents]: the sequence Python iterates over. *)
Definition py_iter (v : value) : outcome (list value) :=
  match v with
  | VList items => Ret items
  | VDict fields => Ret (map (fun kv => VStr (fst kv)) fields)
  | VStr s => Ret (map (fun c => VStr (String c "")) (String.list_ascii_of_string s))
  | _ => Raise (MkExn TypeError ("'" +:+ type_name v +:+ "' object is not iterable"))
  end.

(** [item.get(key)] *)
Definition py_get (item : value) (key : string) : outcome value :=
  match item with
  | VDict fields => Ret (default VNone (assoc key fields))
  | _ => Raise (MkExn AttributeError
                  ("'" +:+ type_name item +:+ "' object has no attribute 'get'"))
  end.

(** [item[key]], reached only after [item.get] went through. *)
Definition py_index (item : value) (key : string) : outcome value :=
  match item with
  | VDict fields =>
      match assoc key fields with
      | Some v => Ret v
      | None => Raise (MkExn KeyError ("'" +:+ key +:+ "'"))
      end
  | _ => Raise (MkExn TypeError ("'" +:+ type_name item +:+ "' object is not subscriptable"))
  end.

(** The dictionary appended for one directory entry. *)
Definition template_entry (item : value) : outcome value :=
  match py_index item "name" with
  | Raise e => Raise e
  | Ret name =>
      match py_index item "path" with
      | Raise e => Raise e
      | Ret path =>
          match py_index item "html_url" with
          | Raise e => Raise e
          | Ret url => Ret (VDict [("name", name); ("path", path); ("url", url)])
          end
      end
  end.

(** The filtering loop, [templates] being the list built so far. *)
Fixpoint collect_templates (contents : list value) (templates : list value)
  : outcome (list value) :=
  match contents with
  | [] => Ret templates
  | item :: rest =>
      match py_get item "type" with
      | Raise e => Raise e
      | Ret ty =>
          if eq_str ty "dir" then
            match template_entry item with
            | Raise e => Raise e
            | Ret t => collect_templates rest (templates ++ [t])
            end
          else collect_templates rest templates
      end
  end.

Definition templates_result (templates : list value) : value :=
  VDict [("success", VBool true);
         ("templates", VList templates);
         ("count", VInt (Z.of_nat (length templates)))].

(** The [try] block of [get_templates]. *)
Definition get_templates_body (E : env) (w : world) : outcome value * world :=
  let url := GITHUB_API_URL +:+ "/contents/" in
  let w1 := log (HttpGet url) w in
  match http_get E url with
  | Raise e => (Raise e, w1)
  | Ret response =>
      if negb (status_code response =? 200) then
        (Ret (failure ("Failed to fetch repository contents. Status code: "
                       +:+ pretty (status_code response))), w1)
      else
        match json response with
        | Raise e => (Raise e, w1)
        | Ret contents =>
            match py_iter contents with
            | Raise e => (Raise e, w1)
            | Ret items =>
                match collect_templates items [] with
                | Raise e => (Raise e, w1)
                | Ret templates => (Ret (templates_result templates), w1)
                end
            end
        end
  end.

(** [get_templates]: the body under its two handlers.  The first catches
    the errors of the HTTP client, the second every other [Exception]. *)
Definition get_templates (E : env) (w : world) : outcome value * world :=
  match get_templates_body E w with
  | (Ret v, w') => (Ret v, w')
  | (Raise e, w') =>
      if is_request_exception e then
        (Ret (failure ("Network error: " +:+ exn_str e)), w')
      else
        (Ret (failure (exn_str e)), w')
  end.

(** ** Directory creation and file copy on the host *)

Definition os_raise {A : Type} (E : env) (k : os_error) (p : list string) : outcome A :=
  Raise (MkExn OSError (strerror E k p)).

(** [mkdir(parents=True, exist_ok=True)], ancestors first: [pre] is the
    part of the path already known to be a directory, [rest] the names
    still to walk.  A name held by a file stops the walk; the
    directories made before stay. *)
Fixpoint mkdir_chain (E : env) (pre rest : list string) (m : gmap (list string) entry)
  : outcome unit * gmap (list string) entry :=
  match rest with
  | [] => (Ret tt, m)
  | x :: rest' =>
      let p := pre ++ [x] in
      match m !! p with
      | Some D => mkdir_chain E p rest' m
      | Some (F _) =>
          (os_raise E (match rest' with [] => FileExistsError | _ => NotADirectoryError end) p, m)
      | None =>
          match io_fault E p with
          | Some e => (Raise e, m)
          | None => mkdir_chain E p rest' (<[p := D]> m)
          end
      end
  end.

Definition mkdir_p (E : env) (p : list string) (m : gmap (list string) entry)
  : outcome unit * gmap (list string) entry :=
  mkdir_chain E [] p m.

Definition parent (p : list string) : list string := removelast p.

Definition basename (p : list string) : string := List.last p "".

(** The user may open the file for writing: the owner's write bit of
    its mode, or a privileged process. *)
Definition writable (E : env) (d : file_data) : bool :=
  privileged E || Z.testbit (mode d) 7.

(** Where [copy2] writes: a destination that is a directory receives
    the file under the source's base name. *)
Definition destination (src_name : string) (dst : list string)
    (m : gmap (list string) entry) : list string :=
  match m !! dst with
  | Some D => dst ++ [src_name]
  | _ => dst
  end.

(** The destination is open, created with mode [mode0] or truncated
    keeping it: the bytes are written, then the metadata of the source
    is copied.  A copy that breaks off leaves what it had written. *)
Definition write_file (E : env) (d : file_data) (dst' : list string) (mode0 : Z)
    (m : gmap (list string) entry) : outcome unit * gmap (list string) entry :=
  match copy_interrupted E dst' with
  | Some i =>
      (Raise (cause i),
       <[dst' := F (MkFile (take (written i) (content d)) mode0 (at_time i))]> m)
  | None => (Ret tt, <[dst' := F d]> m)
  end.

(** [shutil.copy2(src, dst)]: the destination is opened for writing,
    which a directory, a refusal of the system or, for a file that is
    there, its mode can prevent; then the bytes and the metadata of the
    source replace whatever file is there.  The caller has just made the
    parent directory. *)
Definition copy2 (E : env) (src_name : string) (d : file_data) (dst : list string)
    (m : gmap (list string) entry) : outcome unit * gmap (list string) entry :=
  let dst' := destination src_name dst m in
  match m !! dst' with
  | Some D => (os_raise E IsADirectoryError dst', m)
  | Some (F old) =>
      match io_fault E dst' with
      | Some e => (Raise e, m)
      | None =>
          if writable E old then write_file E d dst' (mode old) m
          else (os_raise E PermissionError dst', m)
      end
  | None =>
      match io_fault E dst' with
      | Some e => (Raise e, m)
      | None => write_file E d dst' (create_mode E) m
      end
  end.

(** ** Recursive globbing *)

(** [scandir] of a directory, each entry with its path below the root. *)
Definition children (rel : list string) (n : node) : list (list string * node) :=
  match n with
  | Dir entries => map (fun nc => (rel ++ [fst nc], snd nc)) entries
  | File _ => []
  end.

(** The starting points of the recursive wildcard, as pathlib's selector
    walks them: the directory itself, then each sub-directory in turn,
    recursively. *)
Fixpoint iterate_directories (rel : list string) (n : node) : list (list string * node) :=
  match n with
  | File _ => []
  | Dir entries =>
      (rel, n) :: flat_map (fun nc => iterate_directories (rel ++ [fst nc]) (snd nc)) entries
  end.

(** [root.rglob("*")]: for every starting point, all its entries. *)
Definition rglob_star (root : node) : list (list string * node) :=
  flat_map (fun rd => children (fst rd) (snd rd)) (iterate_directories [] root).

(** ** use_template *)

(** The copy loop; [copied_files] is the list built so far. *)
Fixpoint copy_files (E : env) (target_path : list string)
    (items : list (list string * node)) (m : gmap (list string) entry)
    (copied_files : list string) : outcome (list string) * gmap (list string) entry :=
  match items with
  | [] => (Ret copied_files, m)
  | (relative_path, item) :: rest =>
      match item with
      | Dir _ => copy_files E target_path rest m copied_files
      | File d =>
          let target_file := target_path ++ relative_path in
          match mkdir_p E (parent target_file) m with
          | (Raise e, m1) => (Raise e, m1)
          | (Ret _, m1) =>
              match copy2 E (basename relative_path) d target_file m1 with
              | (Raise e, m2) => (Raise e, m2)
              | (Ret _, m2) =>
                  copy_files E target_path rest m2
                    (copied_files ++ [str_rel (host E) relative_path])
              end
          end
      end
  end.

Definition leaves_clone (pf : platform) (name : string) : bool :=
  anchored pf name || existsb (String.eqb "..") (name_parts pf name).

(** What [temp_path / template_name] names once the clone is there. *)
Definition template_path (E : env) (template_name : string) (tree : node) : option node :=
  if leaves_clone (host E) template_name then host_view E template_name
  else lookup_node (name_parts (host E) template_name) tree.

Definition copied_result (pf : platform) (template_name : string)
    (target_path : list string) (copied_files : list string) : value :=
  VDict [("success", VBool true);
         ("template_name", VStr template_name);
         ("target_folder", VStr (str_abs pf target_path));
         ("files_copied", VInt (Z.of_nat (length copied_files)));
         ("files", VList (map VStr copied_files))].

(** The block under [with tempfile.TemporaryDirectory() as temp_dir]. *)
Definition clone_and_copy (E : env) (template_name : string) (target_path : list string)
    (w : world) : outcome value * world :=
  let w1 := log (GitClone GITHUB_REPO_URL 1) w in
  match clone_from E with
  | CloneFailed partial e => (Raise e, set_workspace (Some partial) w1)
  | Cloned tree =>
      let w2 := set_workspace (Some tree) w1 in
      match template_path E template_name tree with
      | Some (Dir entries) =>
          match copy_files E target_path (rglob_star (Dir entries)) (fs w2) [] with
          | (Raise e, m) => (Raise e, set_fs m w2)
          | (Ret copied_files, m) =>
              (Ret (copied_result (host E) template_name target_path copied_files),
               set_fs m w2)
          end
      | _ =>
          (Ret (failure ("Template '" +:+ template_name
                         +:+ "' not found in the cloned repository")), w2)
      end
  end.

(** The [with] statement: the directory is made on entry and removed on
    the way out, whether the block returns or raises. *)
Definition with_temporary_directory (E : env) (block : world -> outcome value * world)
    (w : world) : outcome value * world :=
  match mkdtemp_fault E with
  | Some e => (Raise e, w)
  | None =>
      let (r, w') := block (set_workspace (Some (Dir [])) w) in
      (r, set_workspace None w')
  end.

(** The [try] block of [use_template]. *)
Definition use_template_body (E : env) (template_name current_folder : string) (w : world)
  : outcome value * world :=
  if String.eqb template_name "" then
    (Ret (failure "Template name is required"), w)
  else if String.eqb current_folder "" then
    (Ret (failure "Target folder is required"), w)
  else
    match expand_absolute E current_folder with
    | Raise e => (Raise e, w)
    | Ret target_path =>
        match mkdir_p E target_path (fs w) with
        | (Raise e, m) => (Raise e, set_fs m w)
        | (Ret _, m) =>
            let url := GITHUB_API_URL +:+ "/contents/" +:+ template_name in
            let w1 := log (HttpGet url) (set_fs m w) in
            match http_get E url with
            | Raise e => (Raise e, w1)
            | Ret response =>
                if status_code response =? 404 then
                  (Ret (failure ("Template '" +:+ template_name
                                 +:+ "' not found in the repository")), w1)
                else if negb (status_code response =? 200) then
                  (Ret (failure ("Failed to check template. Status code: "
                                 +:+ pretty (status_code response))), w1)
                else
                  with_temporary_directory E
                    (clone_and_copy E template_name target_path) w1
            end
        end
    end.

(** [use_template]: the body under its handler for [Exception]. *)
Definition use_template (E : env) (template_name current_folder : string) (w : world)
  : outcome value * world :=
  match use_template_body E template_name current_folder w with
  | (Ret v, w') => (Ret v, w')
  | (Raise e, w') => (Ret (failure (exn_str e)), w')
  end.

(** ** Notions used in the statements *)

Definition is_failure (v : value) : Prop := ∃ msg, v = failure msg.

Definition succeeded (v : value) : Prop := dict_get "success" v = Some (VBool true).

(** No path names a file in [m'] unless it named that same file in [m]. *)
Definition no_new_files (m m' : gmap (list string) entry) : Prop :=
  ∀ q d, m' !! q = Some (F d) → m !! q = Some (F d).

Definition same_files (m m' : gmap (list string) entry) : Prop :=
  ∀ q d, m' !! q = Some (F d) ↔ m !! q = Some (F d).

(** [m'] is [m] with, at most, directories made on the way to [p]. *)
Definition only_dirs_towards (p : list string) (m m' : gmap (list string) entry) : Prop :=
  ∀ q, m' !! q = m !! q ∨ (m !! q = None ∧ m' !! q = Some D ∧ q `prefix_of` p).

(** Every name of [rest], walked from [pre], is a directory of [m]. *)
Fixpoint chain_dirs (pre rest : list string) (m : gmap (list string) entry) : Prop :=
  match rest with
  | [] => True
  | x :: rest' => m !! (pre ++ [x]) = Some D ∧ chain_dirs (pre ++ [x]) rest' m
  end.

(** What a path names, up to the content of a file. *)
Definition kind (o : option entry) : nat :=
  match o with
  | None => 0
  | Some D => 1
  | Some (F _) => 2
  end.

(** Directories stay directories and files stay files. *)
Definition keeps (m m' : gmap (list string) entry) : Prop :=
  ∀ k, m !! k ≠ None → kind (m' !! k) = kind (m !! k).

(** A catalog entry whose remote type is ["dir"]. *)
Definition dir_entry (item : value) : bool :=
  match dict_get "type" item with
  | Some (VStr t) => String.eqb t "dir"
  | _ => false
  end.

(** [t] is the descriptor [{name, path, url}] of the catalog entry [item]. *)
Definition describes (item t : value) : Prop :=
  ∃ name path url,
    dict_get "name" item = Some name ∧
    dict_get "path" item = Some path ∧
    dict_get "html_url" item = Some url ∧
    t = VDict [("name", name); ("path", path); ("url", url)].

(** [child_at rel c n]: below the directory [n], the relative path [rel]
    leads to the entry [c]. *)
Inductive child_at : list string → node → node → Prop :=
  | child_here name c entries :
      (name, c) ∈ entries → child_at [name] c (Dir entries)
  | child_below name sub entries rel c :
      (name, sub) ∈ entries → child_at rel c sub → child_at (name :: rel) c (Dir entries).

(** The relative paths of the regular files under a subtree. *)
Definition file_at (rel : list string) (n : node) : Prop :=
  ∃ d, child_at rel (File d) n.

(** The traversal the specification words: depth first, the entries of a
    directory listed before any of them is descended into. *)
Fixpoint depth_first_listing (rel : list string) (n : node) : list (list string * node) :=
  match n with
  | File _ => []
  | Dir entries =>
      map (fun nc => (rel ++ [fst nc], snd nc)) entries ++
      flat_map (fun nc => depth_first_listing (rel ++ [fst nc]) (snd nc)) entries
  end.

(** The files of a listing, in its order. *)
Definition files_of_listing (items : list (list string * node)) : list (list string) :=
  map fst (List.filter (fun it => is_file (snd it)) items).

(** The two success shapes. *)
Definition is_catalog (v : value) : Prop :=
  ∃ templates, v = templates_result templates.

Definition is_copy_report (v : value) : Prop :=
  ∃ pf template_name target_path copied_files,
    v = copied_result pf template_name target_path copied_files.

(** ** A sample repository, host and catalog *)

Definition sample_file (s : string) : node :=
  File (MkFile (String.list_byte_of_string s) 420 1700000000).

Definition sample_repo : node :=
  Dir [(".git", Dir [("HEAD", sample_file "ref: refs/heads/main")]);
       ("fastapi-starter",
        Dir [("main.py", sample_file "import app");
             ("app", Dir [("routes.py", sample_file "routes = []")])]);
       ("README.md", sample_file "# templates")].

Definition sample_catalog : value :=
  VList [VDict [("name", VStr "fastapi-starter"); ("path", VStr "fastapi-starter");
                ("type", VStr "dir");
                ("html_url", VStr "https://github.com/coderroleggg/getstack-templates/tree/main/fastapi-starter")];
         VDict [("name", VStr "README.md"); ("path", VStr "README.md");
                ("type", VStr "file");
                ("html_url", VStr "https://github.com/coderroleggg/getstack-templates/blob/main/README.md")]].

Definition sample_http (url : string) : outcome response :=
  if String.eqb url (GITHUB_API_URL +:+ "/contents/") then
    Ret (MkResponse 200 (Ret sample_catalog))
  else if String.eqb url (GITHUB_API_URL +:+ "/contents/fastapi-starter") then
    Ret (MkResponse 200 (Ret (VList [])))
  else if String.eqb url (GITHUB_API_URL +:+ "/contents/flaky") then
    Ret (MkResponse 503 (Raise (MkExn ValueError "Expecting value")))
  else
    Ret (MkResponse 404 (Ret (VDict [("message", VStr "Not Found")]))).

Definition sample_env (pf : platform) (target : list string) : env :=
  MkEnv pf sample_http (fun _ => Ret target) (fun _ => None)
        (fun _ p => "[Errno] " +:+ str_abs pf p) None (Cloned sample_repo)
        (fun _ => None) false 420 (fun _ => None).

Definition posix_target : list string := ["/"; "tmp"; "proj"].

Definition windows_target : list string := ["C:\"; "proj"].

Definition sample_world : world :=
  MkWorld {[ ["/"] := D; ["/"; "tmp"] := D ]} None [].

(** A target that already holds a regular file named [app]. *)
Definition blocked_world : world :=
  MkWorld {[ ["/"] := D; ["/"; "tmp"] := D; ["/"; "tmp"; "proj"] := D;
             ["/"; "tmp"; "proj"; "app"] := F (MkFile [] 420 0) ]} None [].

Definition windows_world : world :=
  MkWorld {[ ["C:\"] := D ]} None [].

(** ** Notions used in the further statements *)

Definition is_dict (item : value) : bool :=
  match item with VDict _ => true | _ => false end.

Definition has_key (k : string) (item : value) : bool :=
  match dict_get k item with Some _ => true | None => false end.

(** An entry the listing loop gets through: a dictionary which, when its
    type is ["dir"], has the three keys the loop reads. *)
Definition listable (item : value) : bool :=
  is_dict item &&
  (negb (dir_entry item) ||
   (has_key "name" item && has_key "path" item && has_key "html_url" item)).

Definition descriptor (item : value) : value :=
  VDict [("name", default VNone (dict_get "name" item));
         ("path", default VNone (dict_get "path" item));
         ("url", default VNone (dict_get "html_url" item))].

(** The names of every directory of the tree are pairwise distinct. *)
Inductive distinct_names : node → Prop :=
  | distinct_file d : distinct_names (File d)
  | distinct_dir entries :
      NoDup (map fst entries) →
      (∀ name c, (name, c) ∈ entries → distinct_names c) →
      distinct_names (Dir entries).


(** The two events of a call that goes all the way. *)
Definition full_trace (template_name : string) : list event :=
  [HttpGet (GITHUB_API_URL +:+ "/contents/" +:+ template_name);
   GitClone GITHUB_REPO_URL 1].

(** A POSIX host with the given answers. *)
Definition posix_env (http : string → outcome response)
    (expand : string → outcome (list string)) (clone : clone_result) : env :=
  MkEnv Posix http expand (fun _ => None)
        (fun _ p => "[Errno] " +:+ str_abs Posix p) None clone (fun _ => None)
        false 420 (fun _ => None).

Definition connection_error : exn :=
  MkExn RequestException "HTTPSConnectionPool: Max retries exceeded".

Definition clone_error : exn :=
  MkExn GitError "Cmd('git') failed due to: exit code(128)".

Definition broken_catalog : value :=
  VList [VDict [("name", VStr "README.md"); ("type", VStr "file")];
         VDict [("name", VStr "fastapi-starter"); ("type", VStr "dir");
                ("html_url", VStr "https://github.com/coderroleggg/getstack-templates/tree/main/fastapi-starter")]].

(** A repository whose template holds empty directories only. *)
Definition hollow_repo : node :=
  Dir [("skeleton", Dir [("src", Dir []); ("docs", Dir [("img", Dir [])])])].


(** ** Notions used in the statements on failed and repeated calls *)

(** The call reached the copy loop, over the entries of the template
    into [target], and the loop raised [e], leaving the host as [M]. *)
Definition copy_raised (E : env) (template_name current_folder : string) (w : world)
    (target : list string) (entries : list (string * node)) (e : exn)
    (M : gmap (list string) entry) : Prop :=
  ∃ m response tree,
    template_name ≠ "" ∧ current_folder ≠ "" ∧
    expand_absolute E current_folder = Ret target ∧
    mkdir_p E target (fs w) = (Ret tt, m) ∧
    http_get E (GITHUB_API_URL +:+ "/contents/" +:+ template_name) = Ret response ∧
    status_code response = 200 ∧
    mkdtemp_fault E = None ∧
    clone_from E = Cloned tree ∧
    template_path E template_name tree = Some (Dir entries) ∧
    copy_files E target (rglob_star (Dir entries)) m [] = (Raise e, M).





(** * Properties *)

(** ** Directory creation *)

Section Mkdir.
Context (E : env).

Lemma mkdir_chain_lookup rest : ∀ pre m r m',
  mkdir_chain E pre rest m = (r, m') →
  only_dirs_towards (pre ++ rest) m m'.
Proof.
  induction rest as [|x rest IH]; intros pre m r m' Hrun q; simpl in Hrun.
  - left. congruence.
  - destruct (m !! (pre ++ [x])) as [[d|]|] eqn:Hp.
    + left. congruence.
    + apply IH in Hrun. specialize (Hrun q).
      rewrite <- app_assoc in Hrun. exact Hrun.
    + destruct (io_fault E (pre ++ [x])) as [e|]; [left; congruence|].
      apply IH in Hrun. specialize (Hrun q). rewrite <- app_assoc in Hrun. simpl in Hrun.
      destruct (decide (q = pre ++ [x])) as [->|Hne].
      * right. rewrite Hp. split; [done|]. split.
        -- destruct Hrun as [Hq|(Hq & _ & _)];
             rewrite lookup_insert_eq in Hq; [by rewrite Hq | done].
        -- exists rest. by rewrite <- app_assoc.
      * rewrite lookup_insert_ne in Hrun by done. exact Hrun.
Qed.

Lemma mkdir_chain_dirs rest : ∀ pre m m',
  mkdir_chain E pre rest m = (Ret tt, m') → chain_dirs pre rest m'.
Proof.
  induction rest as [|x rest IH]; intros pre m m' Hrun; simpl in *; [done|].
  assert (Hkeep : ∀ m0 r0 m1, mkdir_chain E (pre ++ [x]) rest m0 = (r0, m1) →
                   m0 !! (pre ++ [x]) = Some D → m1 !! (pre ++ [x]) = Some D).
  { intros m0 r0 m1 H0 HD. apply mkdir_chain_lookup in H0.
    destruct (H0 (pre ++ [x])) as [->|(Hn & _)]; congruence. }
  destruct (m !! (pre ++ [x])) as [[d|]|] eqn:Hp; [done| |].
  - split; [by eapply Hkeep | by eapply IH].
  - destruct (io_fault E (pre ++ [x])); [done|].
    split; [eapply Hkeep; [done|apply lookup_insert_eq] | by eapply IH].
Qed.



Lemma mkdir_p_lookup p m r m' :
  mkdir_p E p m = (r, m') → only_dirs_towards p m m'.
Proof. intros H. by apply mkdir_chain_lookup in H. Qed.

Lemma only_dirs_same_files p m m' : only_dirs_towards p m m' → same_files m m'.
Proof.
  intros H q d. destruct (H q) as [->|(Hn & HD & _)]; [done|].
  rewrite Hn, HD. split; discriminate.
Qed.

Lemma only_dirs_keeps p m m' : only_dirs_towards p m m' → keeps m m'.
Proof.
  intros H k Hk. destruct (H k) as [->|(Hn & _)]; [done|congruence].
Qed.
End Mkdir.

(** ** Validation *)

(** C10: the template name is checked before the target folder, so two
    empty arguments are answered with the error about the template name,
    never with the one about the target folder. *)
Theorem use_template_checks_name_first (E : env) (w : world) :
  use_template E "" "" w = (Ret (failure "Template name is required"), w).
Proof. reflexivity. Qed.

(** C7: when one of the two required arguments is empty, the call is
    answered by a validation failure and the world is the one it started
    from: no request was issued and no directory was made.  With a
    non-empty template name and an empty folder the error is
    "Target folder is required". *)
Theorem use_template_validates_before_effects (E : env) (template_name current_folder : string)
    (w : world) :
  template_name = "" ∨ current_folder = "" →
  ∃ msg,
    use_template E template_name current_folder w = (Ret (failure msg), w) ∧
    trace (snd (use_template E template_name current_folder w)) = trace w ∧
    fs (snd (use_template E template_name current_folder w)) = fs w ∧
    (template_name ≠ "" → msg = "Target folder is required").
Proof.
  intros Hempty. unfold use_template, use_template_body.
  destruct (String.eqb_spec template_name "") as [->|Hname].
  - exists "Template name is required". by repeat split.
  - destruct Hempty as [? | ->]; [done|]. simpl.
    exists "Target folder is required". by repeat split.
Qed.

Lemma use_template_validates_before_effects_witness :
  ∃ msg,
    use_template (sample_env Posix posix_target) "fastapi-starter" "" sample_world
      = (Ret (failure msg), sample_world) ∧
    trace (snd (use_template (sample_env Posix posix_target) "fastapi-starter" ""
                  sample_world)) = trace sample_world ∧
    fs (snd (use_template (sample_env Posix posix_target) "fastapi-starter" ""
               sample_world)) = fs sample_world ∧
    ("fastapi-starter" ≠ "" → msg = "Target folder is required").
Proof.
  apply (use_template_validates_before_effects
           (sample_env Posix posix_target) "fastapi-starter" "" sample_world).
  right. reflexivity.
Defined.

(** ** The existence check *)

(** C3: once the arguments are valid and the target directory is there,
    a 404 answer to the existence check gives the not-found failure, any
    other status than 200 gives a failure that carries the status code;
    either way the host holds the same files as before the call, and
    differs from it by directories on the way to the target at most. *)
Theorem use_template_check_refused (E : env) (template_name current_folder : string)
    (w : world) (target_path : list string) (m : gmap (list string) entry)
    (response : response) :
  template_name ≠ "" →
  current_folder ≠ "" →
  expand_absolute E current_folder = Ret target_path →
  mkdir_p E target_path (fs w) = (Ret tt, m) →
  http_get E (GITHUB_API_URL +:+ "/contents/" +:+ template_name) = Ret response →
  status_code response ≠ 200 →
  let r := use_template E template_name current_folder w in
  (status_code response = 404 →
     fst r = Ret (failure ("Template '" +:+ template_name
                           +:+ "' not found in the repository"))) ∧
  (status_code response ≠ 404 →
     fst r = Ret (failure ("Failed to check template. Status code: "
                           +:+ pretty (status_code response)))) ∧
  fs (snd r) = m ∧
  same_files (fs w) (fs (snd r)) ∧
  only_dirs_towards target_path (fs w) (fs (snd r)) ∧
  workspace (snd r) = workspace w.
Proof.
  intros Hname Hfolder Hexp Hmk Hget Hstatus r. subst r.
  unfold use_template, use_template_body.
  apply String.eqb_neq in Hname, Hfolder. rewrite Hname, Hfolder, Hexp, Hmk, Hget.
  pose proof (mkdir_p_lookup _ _ _ _ _ Hmk) as Hdirs.
  destruct (Z.eqb_spec (status_code response) 404) as [H404|H404]; simpl.
  - split_and!; simpl; [done | done | done | | done | done].
    by apply (only_dirs_same_files target_path).
  - destruct (Z.eqb_spec (status_code response) 200) as [?|_]; [done|]. simpl.
    split_and!; simpl; [done | done | done | | done | done].
    by apply (only_dirs_same_files target_path).
Qed.

Lemma use_template_check_refused_witness :
  let r := use_template (sample_env Posix posix_target) "nonexistent" "/tmp/proj"
             sample_world in
  (404 = 404 →
     fst r = Ret (failure ("Template '" +:+ "nonexistent"
                           +:+ "' not found in the repository"))) ∧
  (404 ≠ 404 →
     fst r = Ret (failure ("Failed to check template. Status code: " +:+ pretty 404))) ∧
  fs (snd r) = <[ posix_target := D ]> (fs sample_world) ∧
  same_files (fs sample_world) (fs (snd r)) ∧
  only_dirs_towards posix_target (fs sample_world) (fs (snd r)) ∧
  workspace (snd r) = workspace sample_world.
Proof.
  apply (use_template_check_refused (sample_env Posix posix_target) "nonexistent"
           "/tmp/proj" sample_world posix_target
           (<[ posix_target := D ]> (fs sample_world))
           (MkResponse 404 (Ret (VDict [("message", VStr "Not Found")])))).
  - discriminate.
  - discriminate.
  - reflexivity.
  - vm_compute. reflexivity.
  - reflexivity.
  - simpl. lia.
Defined.

(** ** The catalog *)

Lemma eq_str_dir_entry fields ty :
  py_get (VDict fields) "type" = Ret ty → eq_str ty "dir" = dir_entry (VDict fields).
Proof.
  unfold py_get, dir_entry, dict_get. intros [= <-].
  destruct (assoc "type" fields) as [[]|]; reflexivity.
Qed.

Lemma template_entry_describes item t :
  template_entry item = Ret t → describes item t.
Proof.
  unfold template_entry, py_index, describes, dict_get.
  destruct item as [| | | | | |fields]; try discriminate.
  destruct (assoc "name" fields) as [name|]; [|discriminate].
  destruct (assoc "path" fields) as [path|]; [|discriminate].
  destruct (assoc "html_url" fields) as [url|]; [|discriminate].
  intros [= <-]. by exists name, path, url.
Qed.

Lemma collect_templates_spec items : ∀ acc templates,
  collect_templates items acc = Ret templates →
  ∃ new, templates = acc ++ new ∧ Forall2 describes (List.filter dir_entry items) new.
Proof.
  induction items as [|item items IH]; intros acc templates Hrun; simpl in Hrun.
  - exists []. injection Hrun as <-. by rewrite app_nil_r.
  - destruct (py_get item "type") as [ty|e] eqn:Hty; [|discriminate].
    destruct item as [| | | | | |fields]; try discriminate.
    simpl. rewrite <- (eq_str_dir_entry fields ty Hty).
    destruct (eq_str ty "dir").
    + destruct (template_entry (VDict fields)) as [t|e] eqn:Ht; [|discriminate].
      apply IH in Hrun as (new & -> & Hnew).
      exists (t :: new). rewrite <- app_assoc. split; [done|].
      constructor; [by apply template_entry_describes | done].
    + by apply IH.
Qed.

(** C6: whenever [get_templates] answers with success, the catalog
    request was answered with status 200 and a body that parsed; the
    [templates] of the result are the descriptors [{name, path, url}] of
    exactly the entries of that body whose type is ["dir"], one for one
    and in the order of the body, and [count] is their number. *)
Theorem get_templates_lists_directories (E : env) (w : world) (v : value) :
  fst (get_templates E w) = Ret v →
  succeeded v →
  ∃ response contents items templates,
    http_get E (GITHUB_API_URL +:+ "/contents/") = Ret response ∧
    status_code response = 200 ∧
    json response = Ret contents ∧
    py_iter contents = Ret items ∧
    Forall2 describes (List.filter dir_entry items) templates ∧
    v = VDict [("success", VBool true);
               ("templates", VList templates);
               ("count", VInt (Z.of_nat (length templates)))].
Proof.
  unfold get_templates, get_templates_body, succeeded.
  destruct (http_get E _) as [response|e] eqn:Hget; simpl.
  - destruct (Z.eqb_spec (status_code response) 200) as [H200|H200]; simpl.
    + destruct (json response) as [contents|e] eqn:Hjson; simpl.
      * destruct (py_iter contents) as [items|e] eqn:Hiter; simpl.
        -- destruct (collect_templates items []) as [templates|e] eqn:Hcol; simpl.
           ++ intros [= <-] _.
              apply collect_templates_spec in Hcol as (new & -> & Hnew).
              by exists response, contents, items, new.
           ++ destruct (is_request_exception e); intros [= <-]; discriminate.
        -- destruct (is_request_exception e); intros [= <-]; discriminate.
      * destruct (is_request_exception e); intros [= <-]; discriminate.
    + intros [= <-]; discriminate.
  - destruct (is_request_exception e); intros [= <-]; discriminate.
Qed.

Lemma get_templates_lists_directories_witness :
  ∃ response contents items templates,
    http_get (sample_env Posix posix_target) (GITHUB_API_URL +:+ "/contents/")
      = Ret response ∧
    status_code response = 200 ∧
    json response = Ret contents ∧
    py_iter contents = Ret items ∧
    Forall2 describes (List.filter dir_entry items) templates ∧
    VDict [("success", VBool true);
           ("templates",
            VList [VDict [("name", VStr "fastapi-starter");
                          ("path", VStr "fastapi-starter");
                          ("url", VStr "https://github.com/coderroleggg/getstack-templates/tree/main/fastapi-starter")]]);
           ("count", VInt 1)]
    = VDict [("success", VBool true);
             ("templates", VList templates);
             ("count", VInt (Z.of_nat (length templates)))].
Proof.
  apply (get_templates_lists_directories (sample_env Posix posix_target) sample_world).
  - reflexivity.
  - reflexivity.
Defined.

(** ** The operation boundary *)

Lemma failure_is_failure msg : is_failure (failure msg).
Proof. by exists msg. Qed.

Lemma clone_and_copy_shape E template_name target_path w v :
  fst (clone_and_copy E template_name target_path w) = Ret v →
  is_failure v ∨ is_copy_report v.
Proof.
  unfold clone_and_copy.
  destruct (clone_from E) as [tree|partial e]; [|discriminate].
  destruct (template_path E template_name tree) as [[d|entries]|];
    try (intros [= <-]; left; apply failure_is_failure).
  destruct (copy_files _ _ _ _ _) as [[copied|e] m]; [|discriminate].
  intros [= <-]. right. by eexists _, _, _, _.
Qed.

Lemma use_template_body_shape E template_name current_folder w v :
  fst (use_template_body E template_name current_folder w) = Ret v →
  is_failure v ∨ is_copy_report v.
Proof.
  unfold use_template_body.
  destruct (String.eqb template_name ""); [intros [= <-]; left; apply failure_is_failure|].
  destruct (String.eqb current_folder ""); [intros [= <-]; left; apply failure_is_failure|].
  destruct (expand_absolute E current_folder) as [target_path|e]; [|discriminate].
  destruct (mkdir_p E target_path (fs w)) as [[[]|e] m]; [|discriminate].
  destruct (http_get E _) as [response|e]; [|discriminate].
  destruct (status_code response =? 404); [intros [= <-]; left; apply failure_is_failure|].
  destruct (negb (status_code response =? 200));
    [intros [= <-]; left; apply failure_is_failure|].
  unfold with_temporary_directory.
  destruct (mkdtemp_fault E); [discriminate|].
  destruct (clone_and_copy E template_name target_path _) as [r w'] eqn:Hblock.
  simpl. intros ->. eapply clone_and_copy_shape. by rewrite Hblock.
Qed.

(** C5: for every environment, world and pair of arguments, each of the
    two operations returns a dictionary and raises nothing; the dictionary
    is either a failure [{success: false, error: msg}] or the operation's
    success report. *)
Theorem operations_return_structured_results (E : env) (w : world)
    (template_name current_folder : string) :
  (∃ v, fst (get_templates E w) = Ret v ∧ (is_failure v ∨ is_catalog v)) ∧
  (∃ v, fst (use_template E template_name current_folder w) = Ret v ∧
        (is_failure v ∨ is_copy_report v)).
Proof.
  split.
  - unfold get_templates, get_templates_body.
    destruct (http_get E _) as [response|e]; simpl.
    + destruct (negb (status_code response =? 200)); simpl;
        [eexists; split; [done | left; apply failure_is_failure]|].
      destruct (json response) as [contents|e]; simpl.
      * destruct (py_iter contents) as [items|e]; simpl.
        -- destruct (collect_templates items []) as [templates|e]; simpl.
           ++ eexists; split; [done | right; by exists templates].
           ++ destruct (is_request_exception e); eexists;
                (split; [done | left; apply failure_is_failure]).
        -- destruct (is_request_exception e); eexists;
             (split; [done | left; apply failure_is_failure]).
      * destruct (is_request_exception e); eexists;
          (split; [done | left; apply failure_is_failure]).
    + destruct (is_request_exception e); eexists;
        (split; [done | left; apply failure_is_failure]).
  - unfold use_template.
    destruct (use_template_body E template_name current_folder w) as [[v|e] w'] eqn:Hbody.
    + exists v. split; [done|].
      apply (use_template_body_shape E template_name current_folder w). by rewrite Hbody.
    + eexists. split; [done | left; apply failure_is_failure].
Qed.

(** ** The ephemeral workspace *)

Lemma clone_and_copy_trace E template_name target_path w :
  trace (snd (clone_and_copy E template_name target_path w))
  = trace w ++ [GitClone GITHUB_REPO_URL 1].
Proof.
  unfold clone_and_copy.
  destruct (clone_from E) as [tree|partial e]; [|done].
  destruct (template_path E template_name tree) as [[d|entries]|]; try done.
  by destruct (copy_files _ _ _ _ _) as [[copied|e] m].
Qed.

(** The bracket: whatever the block does, the directory is gone after. *)
Lemma with_temporary_directory_releases E block w :
  mkdtemp_fault E = None →
  workspace (snd (with_temporary_directory E block w)) = None.
Proof.
  unfold with_temporary_directory. intros ->.
  by destruct (block _) as [r w'].
Qed.

Lemma with_temporary_directory_world E block w :
  (mkdtemp_fault E ≠ None ∧ snd (with_temporary_directory E block w) = w) ∨
  (mkdtemp_fault E = None ∧
   snd (with_temporary_directory E block w)
   = set_workspace None (snd (block (set_workspace (Some (Dir [])) w)))).
Proof.
  unfold with_temporary_directory.
  destruct (mkdtemp_fault E) as [e|]; [by left|right].
  by destruct (block _) as [r w'].
Qed.

(** C2: the events of a call extend the trace; if the clone is among
    them, the ephemeral directory does not exist when the call returns,
    whether the clone failed, the template was missing from it, a copy
    failed or the call succeeded.  A call that never reached the clone
    leaves the workspace as it found it. *)
Theorem use_template_releases_workspace (E : env) (template_name current_folder : string)
    (w : world) :
  ∃ events,
    trace (snd (use_template E template_name current_folder w)) = trace w ++ events ∧
    (GitClone GITHUB_REPO_URL 1 ∈ events →
       workspace (snd (use_template E template_name current_folder w)) = None) ∧
    (GitClone GITHUB_REPO_URL 1 ∉ events →
       workspace (snd (use_template E template_name current_folder w)) = workspace w).
Proof.
  assert (Hsnd : snd (use_template E template_name current_folder w)
                 = snd (use_template_body E template_name current_folder w)).
  { unfold use_template. by destruct (use_template_body _ _ _ _) as [[v|e] w']. }
  rewrite Hsnd. clear Hsnd. unfold use_template_body.
  assert (Hnone : ∀ w0 : world, trace w0 = trace w → workspace w0 = workspace w →
            ∃ events, trace w0 = trace w ++ events ∧
              (GitClone GITHUB_REPO_URL 1 ∈ events → workspace w0 = None) ∧
              (GitClone GITHUB_REPO_URL 1 ∉ events → workspace w0 = workspace w)).
  { intros w0 Ht Hw. exists []. rewrite app_nil_r. split_and!; [done| |done].
    intros Hin. by apply elem_of_nil in Hin. }
  destruct (String.eqb template_name ""); [by apply Hnone|].
  destruct (String.eqb current_folder ""); [by apply Hnone|].
  destruct (expand_absolute E current_folder) as [target_path|e]; [|by apply Hnone].
  destruct (mkdir_p E target_path (fs w)) as [[[]|e] m]; [|by apply Hnone].
  set (url := GITHUB_API_URL +:+ "/contents/" +:+ template_name).
  assert (Hget : ∀ w0 : world, trace w0 = trace w ++ [HttpGet url] →
            workspace w0 = workspace w →
            ∃ events, trace w0 = trace w ++ events ∧
              (GitClone GITHUB_REPO_URL 1 ∈ events → workspace w0 = None) ∧
              (GitClone GITHUB_REPO_URL 1 ∉ events → workspace w0 = workspace w)).
  { intros w0 Ht Hw. exists [HttpGet url]. split_and!; [done| |done].
    intros Hin. apply list_elem_of_singleton in Hin. discriminate. }
  destruct (http_get E url) as [response|e]; [|by apply Hget].
  destruct (status_code response =? 404); [by apply Hget|].
  destruct (negb (status_code response =? 200)); [by apply Hget|].
  destruct (with_temporary_directory_world E
              (clone_and_copy E template_name target_path)
              (log (HttpGet url) (set_fs m w))) as [[_ ->]|[Hok ->]].
  - by apply Hget.
  - exists [HttpGet url; GitClone GITHUB_REPO_URL 1]. simpl.
    rewrite clone_and_copy_trace. simpl. rewrite <- app_assoc. split_and!; [done|done|].
    intros Hnot. exfalso. apply Hnot. set_solver.
Qed.

(** ** Traversal of the template *)

Lemma node_nested_ind (P : node → Prop) :
  (∀ d, P (File d)) →
  (∀ entries, Forall (λ nc, P (snd nc)) entries → P (Dir entries)) →
  ∀ n, P n.
Proof.
  intros Hfile Hdir. fix IH 1. intros [d|entries]; [apply Hfile|].
  apply Hdir. induction entries as [|[name c] entries IHentries]; constructor.
  - apply IH.
  - exact IHentries.
Qed.

Lemma flat_map_flat_map {A B C : Type} (f : B → list C) (g : A → list B) (l : list A) :
  flat_map f (flat_map g l) = flat_map (λ a, flat_map f (g a)) l.
Proof.
  induction l as [|a l IH]; simpl; [done|].
  by rewrite flat_map_app, IH.
Qed.

(** The recursive wildcard enumerates the template depth first, the
    entries of each directory before its sub-directories. *)
Lemma iterate_directories_listing n : ∀ rel,
  flat_map (λ rd, children (fst rd) (snd rd)) (iterate_directories rel n)
  = depth_first_listing rel n.
Proof.
  induction n as [d|entries IH] using node_nested_ind; intros rel; simpl; [done|].
  f_equal. rewrite flat_map_flat_map.
  induction IH as [|nc entries Hnc _ IHentries]; simpl; [done|].
  by rewrite Hnc, IHentries.
Qed.

Lemma rglob_star_depth_first root : rglob_star root = depth_first_listing [] root.
Proof. apply iterate_directories_listing. Qed.

Lemma listing_child_at n : ∀ rel p c,
  (p, c) ∈ depth_first_listing rel n ↔ ∃ r, p = rel ++ r ∧ child_at r c n.
Proof.
  induction n as [d|entries IH] using node_nested_ind; intros rel p c; simpl.
  - split; [by intros ?%elem_of_nil | intros (r & _ & Hc); inversion Hc].
  - rewrite elem_of_app, !list_elem_of_In, in_map_iff, in_flat_map. split.
    + intros [([name sub] & [= <- <-] & Hin)|([name sub] & Hin & Hsub)]; simpl in *.
      * exists [name]. split; [done|]. constructor. by apply list_elem_of_In.
      * apply list_elem_of_In in Hin, Hsub.
        rewrite Forall_forall in IH. apply (IH _ Hin) in Hsub as (r & -> & Hr).
        exists (name :: r). rewrite <- app_assoc. split; [done|].
        by apply child_below with sub.
    + intros (r & -> & Hc). inversion Hc as [name c' es Hin|name sub es r' c' Hin Hsub]; subst.
      * left. exists (name, c). split; [done | by apply list_elem_of_In].
      * right. exists (name, sub). split; [by apply list_elem_of_In|].
        apply list_elem_of_In. rewrite Forall_forall in IH. apply (IH _ Hin).
        exists r'. by rewrite <- app_assoc.
Qed.

Lemma files_of_listing_file_at root rel :
  rel ∈ files_of_listing (depth_first_listing [] root) ↔ file_at rel root.
Proof.
  unfold files_of_listing, file_at.
  rewrite list_elem_of_In, in_map_iff. split.
  - intros ([p c] & <- & Hin). apply filter_In in Hin as [Hin Hfile].
    destruct c as [d|]; [|done]. exists d.
    apply list_elem_of_In, listing_child_at in Hin as (r & -> & Hr). done.
  - intros (d & Hc). exists (rel, File d). split; [done|].
    apply filter_In. split; [|done].
    apply list_elem_of_In, listing_child_at. by exists rel.
Qed.

(** ** The copy loop *)

Section Copy.
Context (E : env) (target_path : list string).

(** A loop that ends normally reports every file of its listing, in
    the order of the listing. *)
Lemma copy_files_reports items : ∀ m copied r M,
  copy_files E target_path items m copied = (Ret r, M) →
  r = copied ++ map (str_rel (host E)) (files_of_listing items).
Proof.
  induction items as [|[rel [d|entries]] items IH]; intros m copied r M Hrun;
    simpl in Hrun.
  - injection Hrun as <- _. by rewrite app_nil_r.
  - destruct (mkdir_p _ _ _) as [[[]|e] m1]; [|done].
    destruct (copy2 _ _ _ _ _) as [[[]|e] m2]; [|done].
    apply IH in Hrun as ->. unfold files_of_listing. simpl. by rewrite <- app_assoc.
  - by apply IH in Hrun.
Qed.

Lemma keeps_refl m : keeps m m.
Proof. by intros k _. Qed.

Lemma keeps_trans m1 m2 m3 : keeps m1 m2 → keeps m2 m3 → keeps m1 m3.
Proof.
  intros H12 H23 k Hk. rewrite <- (H12 k Hk). apply H23.
  intros Hnone. specialize (H12 k Hk). rewrite Hnone in H12.
  destruct (m1 !! k) as [[]|]; done.
Qed.

(** Every way [copy2] can end: nothing written, or one file written
    at the destination, which was not a directory; the file is the
    source when the copy went through. *)
Lemma copy2_cases name d dst m r m' :
  copy2 E name d dst m = (r, m') →
  ((∃ e, r = Raise e) ∧ m' = m) ∨
  ∃ wrote, m !! destination name dst m ≠ Some D ∧
           m' = <[destination name dst m := F wrote]> m ∧
           (r = Ret tt → wrote = d).
Proof.
  unfold copy2, write_file. set (dst' := destination name dst m).
  destruct (m !! dst') as [[old|]|] eqn:Hdst'.
  - destruct (io_fault E dst'); [intros [= <- <-]; left; eauto|].
    destruct (writable E old); [|intros [= <- <-]; left; eauto].
    destruct (copy_interrupted E dst') as [i|]; intros [= <- <-]; right;
      eexists; (split_and!; [done|done|]); [done|done].
  - intros [= <- <-]. left. eauto.
  - destruct (io_fault E dst'); [intros [= <- <-]; left; eauto|].
    destruct (copy_interrupted E dst') as [i|]; intros [= <- <-]; right;
      eexists; (split_and!; [done|done|]); [done|done].
Qed.

Lemma copy2_keeps name d dst m r m' :
  copy2 E name d dst m = (r, m') → keeps m m'.
Proof.
  intros [[_ ->]|(wrote & Hdst & -> & _)]%copy2_cases; [apply keeps_refl|].
  intros k Hk. destruct (decide (k = destination name dst m)) as [->|Hne].
  - rewrite lookup_insert_eq.
    destruct (m !! destination name dst m) as [[old|]|]; done.
  - by rewrite lookup_insert_ne.
Qed.

Lemma copy_files_keeps items : ∀ m copied r M,
  copy_files E target_path items m copied = (r, M) → keeps m M.
Proof.
  induction items as [|[rel [d|entries]] items IH]; intros m copied r M Hrun;
    simpl in Hrun.
  - injection Hrun as _ <-. apply keeps_refl.
  - destruct (mkdir_p _ _ _) as [[[]|e] m1] eqn:Hmk.
    + apply mkdir_p_lookup, only_dirs_keeps in Hmk.
      destruct (copy2 _ _ _ _ _) as [[[]|e] m2] eqn:Hcp.
      * apply copy2_keeps in Hcp. apply IH in Hrun.
        eauto using keeps_trans.
      * apply copy2_keeps in Hcp. injection Hrun as _ <-. eauto using keeps_trans.
    + apply mkdir_p_lookup, only_dirs_keeps in Hmk. by injection Hrun as _ <-.
  - by apply IH in Hrun.
Qed.
End Copy.

(** ** Successful calls *)

Lemma kind_dir o : kind o = 1%nat → o = Some D.
Proof. by destruct o as [[]|]. Qed.


Lemma failure_not_succeeded msg : ¬ succeeded (failure msg).
Proof. discriminate. Qed.

(** What a successful call went through. *)
Lemma use_template_success_inv E template_name current_folder w v w' :
  use_template E template_name current_folder w = (Ret v, w') →
  succeeded v →
  ∃ target_path m response tree entries copied_files M,
    template_name ≠ "" ∧ current_folder ≠ "" ∧
    expand_absolute E current_folder = Ret target_path ∧
    mkdir_p E target_path (fs w) = (Ret tt, m) ∧
    http_get E (GITHUB_API_URL +:+ "/contents/" +:+ template_name) = Ret response ∧
    status_code response = 200 ∧
    mkdtemp_fault E = None ∧
    clone_from E = Cloned tree ∧
    template_path E template_name tree = Some (Dir entries) ∧
    copy_files E target_path (rglob_star (Dir entries)) m [] = (Ret copied_files, M) ∧
    v = copied_result (host E) template_name target_path copied_files ∧
    fs w' = M ∧ workspace w' = None.
Proof.
  unfold use_template.
  destruct (use_template_body E template_name current_folder w) as [[v0|e] w0] eqn:Hbody;
    [|intros [= <- <-] []%failure_not_succeeded].
  intros [= -> ->] Hok. revert Hbody. unfold use_template_body.
  destruct (String.eqb_spec template_name "") as [|Hname];
    [intros [= <- <-]; by apply failure_not_succeeded in Hok|].
  destruct (String.eqb_spec current_folder "") as [|Hfolder];
    [intros [= <- <-]; by apply failure_not_succeeded in Hok|].
  destruct (expand_absolute E current_folder) as [target_path|e] eqn:Hexp; [|done].
  destruct (mkdir_p E target_path (fs w)) as [[[]|e] m] eqn:Hmk; [|done].
  destruct (http_get E _) as [response|e] eqn:Hget; [|done].
  destruct (Z.eqb_spec (status_code response) 404) as [|_];
    [intros [= <- <-]; by apply failure_not_succeeded in Hok|].
  destruct (Z.eqb_spec (status_code response) 200) as [H200|]; simpl;
    [|intros [= <- <-]; by apply failure_not_succeeded in Hok].
  unfold with_temporary_directory.
  destruct (mkdtemp_fault E) as [e|] eqn:Htmp; [done|].
  unfold clone_and_copy.
  destruct (clone_from E) as [tree|partial e] eqn:Hclone; [|done].
  destruct (template_path E template_name tree) as [[d|entries]|] eqn:Htpl;
    try (intros [= <- <-]; by apply failure_not_succeeded in Hok).
  simpl. destruct (copy_files _ _ _ _ _) as [[copied_files|e] M] eqn:Hcopy; [|done].
  intros [= <- <-].
  exists target_path, m, response, tree, entries, copied_files, M.
  by split_and!.
Qed.

(** And the other way round. *)
Lemma use_template_success_intro E template_name current_folder w
    target_path m response tree entries copied_files M :
  template_name ≠ "" → current_folder ≠ "" →
  expand_absolute E current_folder = Ret target_path →
  mkdir_p E target_path (fs w) = (Ret tt, m) →
  http_get E (GITHUB_API_URL +:+ "/contents/" +:+ template_name) = Ret response →
  status_code response = 200 →
  mkdtemp_fault E = None →
  clone_from E = Cloned tree →
  template_path E template_name tree = Some (Dir entries) →
  copy_files E target_path (rglob_star (Dir entries)) m [] = (Ret copied_files, M) →
  ∃ w', use_template E template_name current_folder w
        = (Ret (copied_result (host E) template_name target_path copied_files), w') ∧
        fs w' = M ∧ workspace w' = None.
Proof.
  intros Hname%String.eqb_neq Hfolder%String.eqb_neq Hexp Hmk Hget H200 Htmp Hclone
    Htpl Hcopy.
  unfold use_template, use_template_body, with_temporary_directory, clone_and_copy.
  rewrite Hname, Hfolder, Hexp, Hmk, Hget, H200, Htmp, Hclone, Htpl. simpl.
  rewrite Hcopy. by eexists.
Qed.

(** ** The reported files *)

Lemma use_template_reported E template_name current_folder w v :
  fst (use_template E template_name current_folder w) = Ret v →
  succeeded v →
  ∃ target_path tree entries,
    clone_from E = Cloned tree ∧
    template_path E template_name tree = Some (Dir entries) ∧
    v = copied_result (host E) template_name target_path
          (map (str_rel (host E)) (files_of_listing (depth_first_listing [] (Dir entries)))).
Proof.
  destruct (use_template E template_name current_folder w) as [r w'] eqn:Hrun.
  simpl. intros -> Hok.
  destruct (use_template_success_inv _ _ _ _ _ _ Hrun Hok)
    as (target_path & m & response & tree & entries & copied & M & _ & _
        & _ & _ & _ & _ & _ & Hclone & Htpl & Hcopy & -> & _ & _).
  apply copy_files_reports in Hcopy as ->. rewrite rglob_star_depth_first.
  by exists target_path, tree, entries.
Qed.



(** C4, as stated, fails on a Windows host: the nested file of the
    sample template is reported with a backslash. *)
Lemma windows_report_uses_backslashes :
  let r := use_template (sample_env Windows windows_target) "fastapi-starter" "C:\proj"
             windows_world in
  ∃ v, fst r = Ret v ∧ succeeded v ∧
       file_at ["app"; "routes.py"]
         (Dir [("main.py", sample_file "import app");
               ("app", Dir [("routes.py", sample_file "routes = []")])]) ∧
       dict_get "files" v = Some (VList [VStr "main.py"; VStr "app\routes.py"]) ∧
       dict_get "files" v
       ≠ Some (VList (map (λ p, VStr (join "/" p)) [["main.py"]; ["app"; "routes.py"]])).
Proof.
  eexists. split; [vm_compute; reflexivity|]. split; [reflexivity|]. split.
  - eexists. eapply child_below; [|apply child_here].
    + apply list_elem_of_further, list_elem_of_here.
    + apply list_elem_of_here.
  - split; [reflexivity | discriminate].
Qed.

(** C4 (amended): the [files] of a successful call are the relative
    paths of exactly the regular files under the template subtree of the
    clone, each written with the separator of the host's path flavour: a
    forward slash on a POSIX host, a backslash on a Windows host;
    [files_copied] is their number. *)
Theorem use_template_reports_template_files (E : env)
    (template_name current_folder : string) (w : world) (v : value) :
  fst (use_template E template_name current_folder w) = Ret v →
  succeeded v →
  ∃ tree entries paths,
    clone_from E = Cloned tree ∧
    template_path E template_name tree = Some (Dir entries) ∧
    (∀ rel, rel ∈ paths ↔ file_at rel (Dir entries)) ∧
    dict_get "files" v = Some (VList (map (λ p, VStr (str_rel (host E) p)) paths)) ∧
    dict_get "files_copied" v = Some (VInt (Z.of_nat (length paths))) ∧
    (host E = Posix → ∀ p, str_rel (host E) p = join "/" p) ∧
    (host E = Windows → ∀ p, str_rel (host E) p = join "\" p).
Proof.
  intros Hrun Hok.
  destruct (use_template_reported _ _ _ _ _ Hrun Hok)
    as (target_path & tree & entries & Hclone & Htpl & ->).
  exists tree, entries, (files_of_listing (depth_first_listing [] (Dir entries))).
  split_and!; [done|done| | | | |].
  - intros rel. apply files_of_listing_file_at.
  - simpl. by rewrite map_map.
  - simpl. by rewrite length_map.
  - by intros ->.
  - by intros ->.
Qed.

Lemma use_template_reports_template_files_witness :
  ∃ tree entries paths,
    clone_from (sample_env Windows windows_target) = Cloned tree ∧
    template_path (sample_env Windows windows_target) "fastapi-starter" tree
    = Some (Dir entries) ∧
    (∀ rel, rel ∈ paths ↔ file_at rel (Dir entries)) ∧
    dict_get "files"
      (copied_result Windows "fastapi-starter" windows_target ["main.py"; "app\routes.py"])
    = Some (VList (map (λ p, VStr (str_rel (host (sample_env Windows windows_target)) p))
                     paths)) ∧
    dict_get "files_copied"
      (copied_result Windows "fastapi-starter" windows_target ["main.py"; "app\routes.py"])
    = Some (VInt (Z.of_nat (length paths))) ∧
    (host (sample_env Windows windows_target) = Posix →
       ∀ p, str_rel (host (sample_env Windows windows_target)) p = join "/" p) ∧
    (host (sample_env Windows windows_target) = Windows →
       ∀ p, str_rel (host (sample_env Windows windows_target)) p = join "\" p).
Proof.
  apply (use_template_reports_template_files (sample_env Windows windows_target)
           "fastapi-starter" "C:\proj" windows_world).
  - vm_compute. reflexivity.
  - reflexivity.
Defined.

(** ** Failed calls *)

Lemma same_files_no_new m m' : same_files m m' → no_new_files m m'.
Proof. intros H q d. apply H. Qed.

(** C1, as stated, fails when a copy fails: the target holds a regular
    file [app] where the template needs a directory; the call fails on
    [app/routes.py], and [main.py], copied before, stays in the target. *)
Lemma failed_copy_leaves_copied_files :
  let r := use_template (sample_env Posix posix_target) "fastapi-starter" "/tmp/proj"
             blocked_world in
  (∃ msg, fst r = Ret (failure msg)) ∧
  fs blocked_world !! ["/"; "tmp"; "proj"; "main.py"] = None ∧
  fs (snd r) !! ["/"; "tmp"; "proj"; "main.py"]
  = Some (F (MkFile (String.list_byte_of_string "import app") 420 1700000000)) ∧
  ¬ no_new_files (fs blocked_world) (fs (snd r)).
Proof.
  assert (Hafter :
    fs (snd (use_template (sample_env Posix posix_target) "fastapi-starter" "/tmp/proj"
               blocked_world)) !! ["/"; "tmp"; "proj"; "main.py"]
    = Some (F (MkFile (String.list_byte_of_string "import app") 420 1700000000))).
  { vm_compute. reflexivity. }
  assert (Hbefore : fs blocked_world !! ["/"; "tmp"; "proj"; "main.py"] = None).
  { vm_compute. reflexivity. }
  split_and!; [|done|done|].
  - eexists. vm_compute. reflexivity.
  - intros Hno. apply Hno in Hafter. congruence.
Qed.

(** * Further properties *)

(** ** The catalog request *)

(** X1: whatever the answer, [get_templates] issues one request, to the
    root-contents address, and touches neither the host file system nor
    any workspace. *)
Theorem get_templates_one_request (E : env) (w : world) :
  trace (snd (get_templates E w))
  = trace w ++ [HttpGet (GITHUB_API_URL +:+ "/contents/")] ∧
  fs (snd (get_templates E w)) = fs w ∧
  workspace (snd (get_templates E w)) = workspace w.
Proof.
  unfold get_templates, get_templates_body.
  destruct (http_get E _) as [response|e]; simpl.
  - destruct (negb (status_code response =? 200)); simpl; [done|].
    destruct (json response) as [contents|e]; simpl.
    + destruct (py_iter contents) as [items|e]; simpl.
      * destruct (collect_templates items []) as [templates|e]; simpl; [done|].
        by destruct (is_request_exception e).
      * by destruct (is_request_exception e).
    + by destruct (is_request_exception e).
  - by destruct (is_request_exception e).
Qed.

(** X2: a catalog answer with any status but 200 is reported as a
    failure that carries the status code; its body is not looked at. *)
Theorem get_templates_refused_status (E : env) (w : world) (response : response) :
  http_get E (GITHUB_API_URL +:+ "/contents/") = Ret response →
  status_code response ≠ 200 →
  fst (get_templates E w)
  = Ret (failure ("Failed to fetch repository contents. Status code: "
                  +:+ pretty (status_code response))).
Proof.
  intros Hget Hstatus. unfold get_templates, get_templates_body. rewrite Hget.
  by destruct (Z.eqb_spec (status_code response) 200).
Qed.

Lemma get_templates_refused_status_witness :
  fst (get_templates
         (posix_env (λ _, Ret (MkResponse 403 (Raise (MkExn ValueError "no body"))))
            (λ _, Ret posix_target) (Cloned sample_repo)) sample_world)
  = Ret (failure ("Failed to fetch repository contents. Status code: " +:+ pretty 403)).
Proof.
  apply (get_templates_refused_status
           (posix_env (λ _, Ret (MkResponse 403 (Raise (MkExn ValueError "no body"))))
              (λ _, Ret posix_target) (Cloned sample_repo))
           sample_world (MkResponse 403 (Raise (MkExn ValueError "no body")))).
  - reflexivity.
  - simpl. lia.
Defined.

(** X3: when the request itself, or the parsing of a 200 body, raises,
    the error of the result is the text of the exception, prefixed with
    "Network error: " exactly when the exception is one of the HTTP
    client's. *)
Theorem get_templates_error_text (E : env) (w : world) (e : exn) :
  http_get E (GITHUB_API_URL +:+ "/contents/") = Raise e ∨
  (∃ response, http_get E (GITHUB_API_URL +:+ "/contents/") = Ret response ∧
               status_code response = 200 ∧ json response = Raise e) →
  fst (get_templates E w)
  = Ret (failure (if is_request_exception e
                  then "Network error: " +:+ exn_str e
                  else exn_str e)).
Proof.
  unfold get_templates, get_templates_body.
  intros [Hget|(response & Hget & H200 & Hjson)]; rewrite Hget.
  - by destruct (is_request_exception e).
  - rewrite H200, Hjson. simpl. by destruct (is_request_exception e).
Qed.

Lemma get_templates_error_text_witness :
  fst (get_templates
         (posix_env (λ _, Raise connection_error) (λ _, Ret posix_target)
            (Cloned sample_repo)) sample_world)
  = Ret (failure (if is_request_exception connection_error
                  then "Network error: " +:+ exn_str connection_error
                  else exn_str connection_error)).
Proof.
  apply (get_templates_error_text
           (posix_env (λ _, Raise connection_error) (λ _, Ret posix_target)
              (Cloned sample_repo)) sample_world connection_error).
  left. reflexivity.
Defined.

Lemma template_entry_descriptor fields :
  has_key "name" (VDict fields) = true →
  has_key "path" (VDict fields) = true →
  has_key "html_url" (VDict fields) = true →
  template_entry (VDict fields) = Ret (descriptor (VDict fields)).
Proof.
  unfold has_key, template_entry, descriptor, py_index, dict_get.
  destruct (assoc "name" fields); [|done].
  destruct (assoc "path" fields); [|done].
  by destruct (assoc "html_url" fields).
Qed.

Lemma collect_templates_dict fields rest acc :
  collect_templates (VDict fields :: rest) acc
  = if dir_entry (VDict fields)
    then match template_entry (VDict fields) with
         | Raise e => Raise e
         | Ret t => collect_templates rest (acc ++ [t])
         end
    else collect_templates rest acc.
Proof.
  cbn [collect_templates py_get]. by rewrite (eq_str_dir_entry fields _ eq_refl).
Qed.

Lemma collect_templates_listable items : ∀ acc,
  forallb listable items = true →
  collect_templates items acc
  = Ret (acc ++ map descriptor (List.filter dir_entry items)).
Proof.
  induction items as [|item items IH]; intros acc Hall.
  - simpl. by rewrite app_nil_r.
  - cbn [forallb] in Hall. apply andb_prop in Hall as [Hitem Hall].
    destruct item as [| | | | | |fields]; try discriminate.
    rewrite collect_templates_dict. cbn [List.filter].
    unfold listable in Hitem. cbn [is_dict andb] in Hitem.
    destruct (dir_entry (VDict fields)); [|by apply IH].
    cbn [negb orb] in Hitem.
    apply andb_prop in Hitem as [[Hname Hpath]%andb_prop Hurl].
    rewrite (template_entry_descriptor fields Hname Hpath Hurl).
    rewrite IH by done. cbn [map]. by rewrite <- app_assoc.
Qed.

(** X4: a 200 answer whose body is a list of dictionaries, those of
    type ["dir"] having [name], [path] and [html_url], is listed with
    success; the entries of other types need none of these keys. *)
Theorem get_templates_lists_listable (E : env) (w : world) (response : response)
    (items : list value) :
  http_get E (GITHUB_API_URL +:+ "/contents/") = Ret response →
  status_code response = 200 →
  json response = Ret (VList items) →
  forallb listable items = true →
  fst (get_templates E w)
  = Ret (templates_result (map descriptor (List.filter dir_entry items))).
Proof.
  intros Hget H200 Hjson Hall. unfold get_templates, get_templates_body.
  rewrite Hget, H200, Hjson. simpl. by rewrite collect_templates_listable.
Qed.

Lemma get_templates_lists_listable_witness :
  fst (get_templates (sample_env Posix posix_target) sample_world)
  = Ret (templates_result
           (map descriptor
              (List.filter dir_entry
                 [VDict [("name", VStr "fastapi-starter"); ("path", VStr "fastapi-starter");
                         ("type", VStr "dir");
                         ("html_url", VStr "https://github.com/coderroleggg/getstack-templates/tree/main/fastapi-starter")];
                  VDict [("name", VStr "README.md"); ("path", VStr "README.md");
                         ("type", VStr "file");
                         ("html_url", VStr "https://github.com/coderroleggg/getstack-templates/blob/main/README.md")]]))).
Proof.
  apply (get_templates_lists_listable (sample_env Posix posix_target) sample_world
           (MkResponse 200 (Ret sample_catalog))).
  - reflexivity.
  - reflexivity.
  - reflexivity.
  - reflexivity.
Defined.

Lemma collect_templates_missing_key items : ∀ acc,
  forallb is_dict items = true →
  existsb (λ item, negb (listable item)) items = true →
  ∃ key, key ∈ ["name"; "path"; "html_url"] ∧
         collect_templates items acc = Raise (MkExn KeyError ("'" +:+ key +:+ "'")).
Proof.
  induction items as [|item items IH]; intros acc Hdicts Hbad; [done|].
  cbn [forallb existsb] in Hdicts, Hbad.
  apply andb_prop in Hdicts as [Hdict Hdicts].
  destruct item as [| | | | | |fields]; try discriminate.
  rewrite collect_templates_dict.
  unfold listable in Hbad. cbn [is_dict andb] in Hbad.
  destruct (dir_entry (VDict fields)); cbn [negb orb] in Hbad; [|by apply IH].
  unfold template_entry, py_index. unfold has_key, dict_get in Hbad.
  destruct (assoc "name" fields) as [name|];
    [|exists "name"; split; [set_solver|done]].
  destruct (assoc "path" fields) as [path|];
    [|exists "path"; split; [set_solver|done]].
  destruct (assoc "html_url" fields) as [url|];
    [|exists "html_url"; split; [set_solver|done]].
  simpl in Hbad. by apply IH.
Qed.

(** X5: the listing is all or nothing: if the entries of a 200 body are
    dictionaries and one of type ["dir"] lacks [name], [path] or
    [html_url], the whole call fails, with the quoted name of a missing
    key as its error, and no partial list is returned. *)
Theorem get_templates_missing_key (E : env) (w : world) (response : response)
    (items : list value) :
  http_get E (GITHUB_API_URL +:+ "/contents/") = Ret response →
  status_code response = 200 →
  json response = Ret (VList items) →
  forallb is_dict items = true →
  existsb (λ item, negb (listable item)) items = true →
  ∃ key, key ∈ ["name"; "path"; "html_url"] ∧
         fst (get_templates E w) = Ret (failure ("'" +:+ key +:+ "'")).
Proof.
  intros Hget H200 Hjson Hdicts Hbad.
  destruct (collect_templates_missing_key items [] Hdicts Hbad) as (key & Hkey & Hrun).
  exists key. split; [done|].
  unfold get_templates, get_templates_body.
  rewrite Hget, H200, Hjson. simpl. by rewrite Hrun.
Qed.

Lemma get_templates_missing_key_witness :
  ∃ key, key ∈ ["name"; "path"; "html_url"] ∧
         fst (get_templates
                (posix_env (λ _, Ret (MkResponse 200 (Ret broken_catalog)))
                   (λ _, Ret posix_target) (Cloned sample_repo)) sample_world)
         = Ret (failure ("'" +:+ key +:+ "'")).
Proof.
  apply (get_templates_missing_key
           (posix_env (λ _, Ret (MkResponse 200 (Ret broken_catalog)))
              (λ _, Ret posix_target) (Cloned sample_repo))
           sample_world (MkResponse 200 (Ret broken_catalog))
           [VDict [("name", VStr "README.md"); ("type", VStr "file")];
            VDict [("name", VStr "fastapi-starter"); ("type", VStr "dir");
                   ("html_url", VStr "https://github.com/coderroleggg/getstack-templates/tree/main/fastapi-starter")]]).
  - reflexivity.
  - reflexivity.
  - reflexivity.
  - reflexivity.
  - reflexivity.
Defined.

(** ** Failures of [use_template] before the copy *)

(** X6: when the existence check itself raises, the error of the result
    is the bare text of the exception, with no "Network error: " prefix
    even for an exception of the HTTP client; the request is on the
    trace, nothing is cloned, and the host is as [mkdir] left it. *)
Theorem use_template_check_raises (E : env) (template_name current_folder : string)
    (w : world) (target_path : list string) (m : gmap (list string) entry) (e : exn) :
  template_name ≠ "" →
  current_folder ≠ "" →
  expand_absolute E current_folder = Ret target_path →
  mkdir_p E target_path (fs w) = (Ret tt, m) →
  http_get E (GITHUB_API_URL +:+ "/contents/" +:+ template_name) = Raise e →
  use_template E template_name current_folder w
  = (Ret (failure (exn_str e)),
     log (HttpGet (GITHUB_API_URL +:+ "/contents/" +:+ template_name)) (set_fs m w)).
Proof.
  intros Hname%String.eqb_neq Hfolder%String.eqb_neq Hexp Hmk Hget.
  unfold use_template, use_template_body. by rewrite Hname, Hfolder, Hexp, Hmk, Hget.
Qed.

Lemma use_template_check_raises_witness :
  use_template
    (posix_env (λ _, Raise connection_error) (λ _, Ret posix_target) (Cloned sample_repo))
    "fastapi-starter" "/tmp/proj" sample_world
  = (Ret (failure (exn_str connection_error)),
     log (HttpGet (GITHUB_API_URL +:+ "/contents/" +:+ "fastapi-starter"))
       (set_fs (<[ posix_target := D ]> (fs sample_world)) sample_world)).
Proof.
  apply (use_template_check_raises
           (posix_env (λ _, Raise connection_error) (λ _, Ret posix_target)
              (Cloned sample_repo))
           "fastapi-starter" "/tmp/proj" sample_world posix_target).
  - discriminate.
  - discriminate.
  - reflexivity.
  - vm_compute. reflexivity.
  - reflexivity.
Defined.

(** X7: when the target folder cannot be resolved or created, the call
    fails with the text of that error before any request is issued: the
    trace and the workspace are unchanged, and the host holds the same
    files as before. *)
Theorem use_template_target_unavailable (E : env) (template_name current_folder : string)
    (w : world) (e : exn) :
  template_name ≠ "" →
  current_folder ≠ "" →
  expand_absolute E current_folder = Raise e ∨
  (∃ target_path m, expand_absolute E current_folder = Ret target_path ∧
                    mkdir_p E target_path (fs w) = (Raise e, m)) →
  fst (use_template E template_name current_folder w) = Ret (failure (exn_str e)) ∧
  trace (snd (use_template E template_name current_folder w)) = trace w ∧
  workspace (snd (use_template E template_name current_folder w)) = workspace w ∧
  same_files (fs w) (fs (snd (use_template E template_name current_folder w))).
Proof.
  intros Hname%String.eqb_neq Hfolder%String.eqb_neq Hcause.
  unfold use_template, use_template_body. rewrite Hname, Hfolder.
  destruct Hcause as [Hexp|(target_path & m & Hexp & Hmk)]; rewrite Hexp.
  - by split_and!.
  - rewrite Hmk. split_and!; [done|done|done|]. simpl.
    eapply only_dirs_same_files, mkdir_p_lookup, Hmk.
Qed.

Lemma use_template_target_unavailable_witness :
  fst (use_template
         (posix_env sample_http (λ _, Ret ["/"; "tmp"; "proj"; "app"; "new"])
            (Cloned sample_repo))
         "fastapi-starter" "/tmp/proj/app/new" blocked_world)
  = Ret (failure (exn_str (MkExn OSError "[Errno] /tmp/proj/app"))) ∧
  trace (snd (use_template
                (posix_env sample_http (λ _, Ret ["/"; "tmp"; "proj"; "app"; "new"])
                   (Cloned sample_repo))
                "fastapi-starter" "/tmp/proj/app/new" blocked_world))
  = trace blocked_world ∧
  workspace (snd (use_template
                    (posix_env sample_http (λ _, Ret ["/"; "tmp"; "proj"; "app"; "new"])
                       (Cloned sample_repo))
                    "fastapi-starter" "/tmp/proj/app/new" blocked_world))
  = workspace blocked_world ∧
  same_files (fs blocked_world)
    (fs (snd (use_template
                (posix_env sample_http (λ _, Ret ["/"; "tmp"; "proj"; "app"; "new"])
                   (Cloned sample_repo))
                "fastapi-starter" "/tmp/proj/app/new" blocked_world))).
Proof.
  apply (use_template_target_unavailable
           (posix_env sample_http (λ _, Ret ["/"; "tmp"; "proj"; "app"; "new"])
              (Cloned sample_repo))
           "fastapi-starter" "/tmp/proj/app/new" blocked_world).
  - discriminate.
  - discriminate.
  - right. exists ["/"; "tmp"; "proj"; "app"; "new"], (fs blocked_world).
    split; [reflexivity|]. vm_compute. reflexivity.
Defined.

(** X9: the second existence check.  When the clone went through but
    holds no directory under the template's name (nothing there, or a
    regular file), the call fails with the cloned-repository message;
    both remote events are on the trace, the workspace is gone, and the
    host is as [mkdir] left it. *)
Theorem use_template_missing_in_clone (E : env) (template_name current_folder : string)
    (w : world) (target_path : list string) (m : gmap (list string) entry)
    (response : response) (tree : node) :
  template_name ≠ "" →
  current_folder ≠ "" →
  expand_absolute E current_folder = Ret target_path →
  mkdir_p E target_path (fs w) = (Ret tt, m) →
  http_get E (GITHUB_API_URL +:+ "/contents/" +:+ template_name) = Ret response →
  status_code response = 200 →
  mkdtemp_fault E = None →
  clone_from E = Cloned tree →
  (template_path E template_name tree = None ∨
   ∃ d, template_path E template_name tree = Some (File d)) →
  fst (use_template E template_name current_folder w)
  = Ret (failure ("Template '" +:+ template_name
                  +:+ "' not found in the cloned repository")) ∧
  trace (snd (use_template E template_name current_folder w))
  = trace w ++ full_trace template_name ∧
  workspace (snd (use_template E template_name current_folder w)) = None ∧
  fs (snd (use_template E template_name current_folder w)) = m.
Proof.
  intros Hname%String.eqb_neq Hfolder%String.eqb_neq Hexp Hmk Hget H200 Htmp Hclone Htpl.
  unfold use_template, use_template_body, with_temporary_directory, clone_and_copy.
  rewrite Hname, Hfolder, Hexp, Hmk, Hget, H200, Htmp, Hclone. simpl.
  destruct Htpl as [->|[d ->]]; simpl; by rewrite <- app_assoc.
Qed.

Lemma use_template_missing_in_clone_witness :
  fst (use_template
         (posix_env (λ _, Ret (MkResponse 200 (Ret (VList [])))) (λ _, Ret posix_target)
            (Cloned sample_repo))
         "README.md" "/tmp/proj" sample_world)
  = Ret (failure ("Template '" +:+ "README.md"
                  +:+ "' not found in the cloned repository")) ∧
  trace (snd (use_template
                (posix_env (λ _, Ret (MkResponse 200 (Ret (VList []))))
                   (λ _, Ret posix_target) (Cloned sample_repo))
                "README.md" "/tmp/proj" sample_world))
  = trace sample_world ++ full_trace "README.md" ∧
  workspace (snd (use_template
                    (posix_env (λ _, Ret (MkResponse 200 (Ret (VList []))))
                       (λ _, Ret posix_target) (Cloned sample_repo))
                    "README.md" "/tmp/proj" sample_world)) = None ∧
  fs (snd (use_template
             (posix_env (λ _, Ret (MkResponse 200 (Ret (VList []))))
                (λ _, Ret posix_target) (Cloned sample_repo))
             "README.md" "/tmp/proj" sample_world))
  = <[ posix_target := D ]> (fs sample_world).
Proof.
  apply (use_template_missing_in_clone
           (posix_env (λ _, Ret (MkResponse 200 (Ret (VList [])))) (λ _, Ret posix_target)
              (Cloned sample_repo))
           "README.md" "/tmp/proj" sample_world posix_target
           (<[ posix_target := D ]> (fs sample_world))
           (MkResponse 200 (Ret (VList []))) sample_repo).
  - discriminate.
  - discriminate.
  - reflexivity.
  - vm_compute. reflexivity.
  - reflexivity.
  - reflexivity.
  - reflexivity.
  - reflexivity.
  - right. eexists. reflexivity.
Defined.

(** X10: when the clone fails, the call fails with the text of the
    clone's error; whatever the clone had written is removed with the
    workspace, and the host is as [mkdir] left it. *)
Theorem use_template_clone_fails (E : env) (template_name current_folder : string)
    (w : world) (target_path : list string) (m : gmap (list string) entry)
    (response : response) (partial : node) (e : exn) :
  template_name ≠ "" →
  current_folder ≠ "" →
  expand_absolute E current_folder = Ret target_path →
  mkdir_p E target_path (fs w) = (Ret tt, m) →
  http_get E (GITHUB_API_URL +:+ "/contents/" +:+ template_name) = Ret response →
  status_code response = 200 →
  mkdtemp_fault E = None →
  clone_from E = CloneFailed partial e →
  fst (use_template E template_name current_folder w) = Ret (failure (exn_str e)) ∧
  trace (snd (use_template E template_name current_folder w))
  = trace w ++ full_trace template_name ∧
  workspace (snd (use_template E template_name current_folder w)) = None ∧
  fs (snd (use_template E template_name current_folder w)) = m.
Proof.
  intros Hname%String.eqb_neq Hfolder%String.eqb_neq Hexp Hmk Hget H200 Htmp Hclone.
  unfold use_template, use_template_body, with_temporary_directory, clone_and_copy.
  rewrite Hname, Hfolder, Hexp, Hmk, Hget, H200, Htmp, Hclone. simpl.
  by rewrite <- app_assoc.
Qed.

Lemma use_template_clone_fails_witness :
  fst (use_template
         (posix_env sample_http (λ _, Ret posix_target)
            (CloneFailed (Dir [(".git", Dir [])]) clone_error))
         "fastapi-starter" "/tmp/proj" sample_world)
  = Ret (failure (exn_str clone_error)) ∧
  trace (snd (use_template
                (posix_env sample_http (λ _, Ret posix_target)
                   (CloneFailed (Dir [(".git", Dir [])]) clone_error))
                "fastapi-starter" "/tmp/proj" sample_world))
  = trace sample_world ++ full_trace "fastapi-starter" ∧
  workspace (snd (use_template
                    (posix_env sample_http (λ _, Ret posix_target)
                       (CloneFailed (Dir [(".git", Dir [])]) clone_error))
                    "fastapi-starter" "/tmp/proj" sample_world)) = None ∧
  fs (snd (use_template
             (posix_env sample_http (λ _, Ret posix_target)
                (CloneFailed (Dir [(".git", Dir [])]) clone_error))
             "fastapi-starter" "/tmp/proj" sample_world))
  = <[ posix_target := D ]> (fs sample_world).
Proof.
  apply (use_template_clone_fails
           (posix_env sample_http (λ _, Ret posix_target)
              (CloneFailed (Dir [(".git", Dir [])]) clone_error))
           "fastapi-starter" "/tmp/proj" sample_world posix_target
           (<[ posix_target := D ]> (fs sample_world))
           (MkResponse 200 (Ret (VList []))) (Dir [(".git", Dir [])]) clone_error).
  - discriminate.
  - discriminate.
  - reflexivity.
  - vm_compute. reflexivity.
  - reflexivity.
  - reflexivity.
  - reflexivity.
  - reflexivity.
Defined.

(** ** The remote requests of [use_template] *)

(** X11: a call issues at most one existence check and then at most one
    clone, in that order, and never anything else; it clones only after
    the check was answered with status 200, and a successful call has
    done both. *)
Theorem use_template_request_discipline (E : env) (template_name current_folder : string)
    (w : world) :
  ∃ events,
    trace (snd (use_template E template_name current_folder w)) = trace w ++ events ∧
    events `prefix_of` full_trace template_name ∧
    (GitClone GITHUB_REPO_URL 1 ∈ events →
       ∃ response,
         http_get E (GITHUB_API_URL +:+ "/contents/" +:+ template_name) = Ret response ∧
         status_code response = 200) ∧
    (∀ v, fst (use_template E template_name current_folder w) = Ret v →
          succeeded v → events = full_trace template_name).
Proof.
  destruct (use_template E template_name current_folder w) as [r w'] eqn:Hrun.
  revert Hrun. unfold use_template.
  destruct (use_template_body E template_name current_folder w) as [r0 w0] eqn:Hbody.
  intros Hrun.
  assert (Hw : w' = w0) by (destruct r0; by injection Hrun as _ <-).
  assert (Hr : ∀ v, r = Ret v → succeeded v → r0 = Ret v).
  { intros v -> Hok. destruct r0 as [v0|e]; injection Hrun as <-; [done|].
    by apply failure_not_succeeded in Hok. }
  subst w'. clear Hrun. simpl. revert Hbody. unfold use_template_body.
  set (url := GITHUB_API_URL +:+ "/contents/" +:+ template_name).
  assert (Hnil : ∀ msg (w1 : world),
            (r0, w0) = (Ret (failure msg), w1) ∨ (∃ e, (r0, w0) = (Raise e, w1)) →
            trace w1 = trace w →
            ∃ events, trace w0 = trace w ++ events ∧
              events `prefix_of` full_trace template_name ∧
              (GitClone GITHUB_REPO_URL 1 ∈ events →
                 ∃ response, http_get E url = Ret response ∧ status_code response = 200) ∧
              (∀ v, r = Ret v → succeeded v → events = full_trace template_name)).
  { intros msg w1 Hcase Ht. exists []. rewrite app_nil_r.
    assert (w0 = w1) as -> by (destruct Hcase as [[= _ ->]|[e [= _ ->]]]; done).
    split_and!; [done|apply prefix_nil|by intros ?%elem_of_nil|].
    intros v Hv Hok. pose proof (Hr v Hv Hok) as Hr0. subst r0.
    destruct Hcase as [[= ->]|[e [=]]]. by apply failure_not_succeeded in Hok. }
  assert (Hone : ∀ msg (w1 : world),
            (r0, w0) = (Ret (failure msg), w1) ∨ (∃ e, (r0, w0) = (Raise e, w1)) →
            trace w1 = trace w ++ [HttpGet url] →
            ∃ events, trace w0 = trace w ++ events ∧
              events `prefix_of` full_trace template_name ∧
              (GitClone GITHUB_REPO_URL 1 ∈ events →
                 ∃ response, http_get E url = Ret response ∧ status_code response = 200) ∧
              (∀ v, r = Ret v → succeeded v → events = full_trace template_name)).
  { intros msg w1 Hcase Ht. exists [HttpGet url].
    assert (w0 = w1) as -> by (destruct Hcase as [[= _ ->]|[e [= _ ->]]]; done).
    split_and!; [done|by exists [GitClone GITHUB_REPO_URL 1]| |].
    - intros Hin%list_elem_of_singleton. discriminate.
    - intros v Hv Hok. pose proof (Hr v Hv Hok) as Hr0. subst r0.
      destruct Hcase as [[= ->]|[e [=]]]. by apply failure_not_succeeded in Hok. }
  destruct (String.eqb template_name "");
    [intros [= <- <-]; eapply Hnil; [by left|done]|].
  destruct (String.eqb current_folder "");
    [intros [= <- <-]; eapply Hnil; [by left|done]|].
  destruct (expand_absolute E current_folder) as [target_path|e];
    [|intros [= <- <-]; eapply (Hnil ""); [right; by eexists|done]].
  destruct (mkdir_p E target_path (fs w)) as [[[]|e] m];
    [|intros [= <- <-]; eapply (Hnil ""); [right; by eexists|done]].
  fold url.
  destruct (http_get E url) as [response|e] eqn:Hget;
    [|intros [= <- <-]; eapply (Hone ""); [right; by eexists|done]].
  destruct (status_code response =? 404);
    [intros [= <- <-]; eapply Hone; [by left|done]|].
  destruct (Z.eqb_spec (status_code response) 200) as [H200|_]; simpl;
    [|intros [= <- <-]; eapply Hone; [by left|done]].
  unfold with_temporary_directory.
  destruct (mkdtemp_fault E) as [e|];
    [intros [= <- <-]; eapply (Hone ""); [right; by eexists|done]|].
  destruct (clone_and_copy E template_name target_path _) as [r1 w1] eqn:Hblock.
  intros [= <- <-]. exists (full_trace template_name). simpl.
  pose proof (clone_and_copy_trace E template_name target_path
                (set_workspace (Some (Dir [])) (log (HttpGet url) (set_fs m w)))) as Ht.
  rewrite Hblock in Ht. simpl in Ht. rewrite Ht, <- app_assoc.
  split_and!; [done|done| |done].
  intros _. by exists response.
Qed.

(** ** What [use_template] does to the host *)

Lemma use_template_snd E template_name current_folder w :
  snd (use_template E template_name current_folder w)
  = snd (use_template_body E template_name current_folder w).
Proof.
  unfold use_template. by destruct (use_template_body _ _ _ _) as [[v|e] w'].
Qed.

(** Past the validation and the expansion of the folder, the host ends
    as [mkdir] left it, or as the copy loop, started from there, left it. *)
Lemma use_template_host_from E template_name current_folder w target_path r m :
  template_name ≠ "" →
  current_folder ≠ "" →
  expand_absolute E current_folder = Ret target_path →
  mkdir_p E target_path (fs w) = (r, m) →
  fs (snd (use_template E template_name current_folder w)) = m ∨
  ∃ tree entries r',
    r = Ret tt ∧ clone_from E = Cloned tree ∧
    template_path E template_name tree = Some (Dir entries) ∧
    copy_files E target_path (rglob_star (Dir entries)) m []
    = (r', fs (snd (use_template E template_name current_folder w))).
Proof.
  intros Hname%String.eqb_neq Hfolder%String.eqb_neq Hexp Hmk.
  rewrite use_template_snd. unfold use_template_body.
  rewrite Hname, Hfolder, Hexp, Hmk.
  destruct r as [[]|e]; [|by left].
  destruct (http_get E _) as [response|e]; [|by left].
  destruct (status_code response =? 404); [by left|].
  destruct (negb (status_code response =? 200)); [by left|].
  unfold with_temporary_directory.
  destruct (mkdtemp_fault E); [by left|].
  unfold clone_and_copy.
  destruct (clone_from E) as [tree|partial e] eqn:Hclone; [|by left].
  destruct (template_path E template_name tree) as [[d|entries]|] eqn:Htpl;
    [by left| |by left].
  simpl. destruct (copy_files _ _ _ _ _) as [r' M] eqn:Hcopy.
  right. exists tree, entries, r'. by destruct r'.
Qed.

Lemma use_template_host E template_name current_folder w :
  fs (snd (use_template E template_name current_folder w)) = fs w ∨
  ∃ target_path r m,
    template_name ≠ "" ∧ current_folder ≠ "" ∧
    expand_absolute E current_folder = Ret target_path ∧
    mkdir_p E target_path (fs w) = (r, m).
Proof.
  destruct (String.eqb_spec template_name "") as [->|Hname]; [by left|].
  destruct (String.eqb_spec current_folder "") as [->|Hfolder].
  { left. rewrite use_template_snd. unfold use_template_body.
    apply String.eqb_neq in Hname. by rewrite Hname. }
  destruct (expand_absolute E current_folder) as [target_path|e] eqn:Hexp.
  - right. destruct (mkdir_p E target_path (fs w)) as [r m] eqn:Hmk.
    by exists target_path, r, m.
  - left. rewrite use_template_snd. unfold use_template_body.
    apply String.eqb_neq in Hname, Hfolder. by rewrite Hname, Hfolder, Hexp.
Qed.

(** X13: no call ever removes a path of the host, turns a file into a
    directory or a directory into a file: it only adds paths and
    rewrites files. *)
Theorem use_template_never_removes (E : env) (template_name current_folder : string)
    (w : world) :
  keeps (fs w) (fs (snd (use_template E template_name current_folder w))).
Proof.
  destruct (use_template_host E template_name current_folder w)
    as [->|(target_path & r & m & Hname & Hfolder & Hexp & Hmk)]; [apply keeps_refl|].
  pose proof (only_dirs_keeps _ _ _ (mkdir_p_lookup _ _ _ _ _ Hmk)) as Hkm.
  destruct (use_template_host_from _ _ _ _ _ _ _ Hname Hfolder Hexp Hmk)
    as [->|(tree & entries & r' & _ & _ & _ & Hcopy)]; [done|].
  eapply keeps_trans; [exact Hkm|]. by eapply copy_files_keeps.
Qed.

Lemma chain_dirs_last rest : ∀ pre m,
  chain_dirs pre rest m → rest ≠ [] → m !! (pre ++ rest) = Some D.
Proof.
  induction rest as [|x rest IH]; intros pre m Hd Hne; [done|].
  destruct Hd as [Hx Hd]. destruct rest as [|y rest]; [done|].
  change (pre ++ x :: y :: rest) with (pre ++ [x] ++ y :: rest).
  rewrite app_assoc. by apply IH.
Qed.

(** X8: the target folder is made before the template is looked for:
    once the arguments are valid and [mkdir] went through, the target is
    a directory of the host when the call returns, whatever happens
    next (unknown template, network or clone error, failed copy). *)
Theorem use_template_makes_target (E : env) (template_name current_folder : string)
    (w : world) (target_path : list string) (m : gmap (list string) entry) :
  template_name ≠ "" →
  current_folder ≠ "" →
  expand_absolute E current_folder = Ret target_path →
  target_path ≠ [] →
  mkdir_p E target_path (fs w) = (Ret tt, m) →
  fs (snd (use_template E template_name current_folder w)) !! target_path = Some D.
Proof.
  intros Hname Hfolder Hexp Hne Hmk.
  assert (Hm : m !! target_path = Some D).
  { apply (chain_dirs_last target_path [] m); [|done]. by eapply mkdir_chain_dirs. }
  destruct (use_template_host_from _ _ _ _ _ _ _ Hname Hfolder Hexp Hmk)
    as [->|(tree & entries & r' & _ & _ & _ & Hcopy)]; [done|].
  apply copy_files_keeps in Hcopy. apply kind_dir.
  rewrite (Hcopy target_path); by rewrite Hm.
Qed.

Lemma use_template_makes_target_witness :
  fs (snd (use_template (sample_env Posix posix_target) "nonexistent" "/tmp/proj"
             sample_world)) !! posix_target = Some D.
Proof.
  apply (use_template_makes_target (sample_env Posix posix_target) "nonexistent"
           "/tmp/proj" sample_world posix_target
           (<[ posix_target := D ]> (fs sample_world))).
  - discriminate.
  - discriminate.
  - reflexivity.
  - discriminate.
  - vm_compute. reflexivity.
Defined.





Lemma destination_cases (name : string) (dst : list string)
    (m : gmap (list string) entry) :
  destination name dst m = dst ∨ destination name dst m = dst ++ [name].
Proof. unfold destination. destruct (m !! dst) as [[]|]; auto. Qed.

Lemma copy2_lookup E name d dst m r m' :
  copy2 E name d dst m = (r, m') →
  ∀ k, m' !! k = m !! k ∨ k = dst ∨ k = dst ++ [name].
Proof.
  intros [[_ ->]|(wrote & _ & -> & _)]%copy2_cases k; [by left|].
  destruct (decide (k = destination name dst m)) as [->|Hne].
  - right. apply destination_cases.
  - left. by rewrite lookup_insert_ne.
Qed.



(** ** What the copy writes *)

Lemma rglob_star_child_at root rel c :
  (rel, c) ∈ rglob_star root ↔ child_at rel c root.
Proof.
  rewrite rglob_star_depth_first, listing_child_at. split.
  - by intros (r & -> & Hr).
  - intros Hc. by exists rel.
Qed.




Lemma NoDup_fst_functional {A : Type} (l : list (string * A)) x y1 y2 :
  NoDup (map fst l) → (x, y1) ∈ l → (x, y2) ∈ l → y1 = y2.
Proof.
  induction l as [|[a b] l IH]; simpl; intros Hnd H1 H2; [by apply elem_of_nil in H1|].
  apply NoDup_cons in Hnd as [Ha Hnd].
  assert (Hfst : ∀ y, (a, y) ∈ l → False).
  { intros y Hy. apply Ha, list_elem_of_In, in_map_iff.
    exists (a, y). split; [done|by apply list_elem_of_In]. }
  apply elem_of_cons in H1 as [H1|H1]; apply elem_of_cons in H2 as [H2|H2].
  - congruence.
  - injection H1 as -> ->. by destruct (Hfst y2).
  - injection H2 as -> ->. by destruct (Hfst y1).
  - by apply IH.
Qed.

Lemma child_at_nonempty c n : ¬ child_at [] c n.
Proof. intros H. inversion H. Qed.

Lemma child_at_file rel c d : ¬ child_at rel c (File d).
Proof. intros H. inversion H. Qed.

Lemma child_at_functional rel c n :
  child_at rel c n → distinct_names n → ∀ c', child_at rel c' n → c = c'.
Proof.
  induction 1 as [name c entries Hin|name sub entries rel c Hin Hsub IH];
    intros Hdn c' Hc'; inversion Hdn as [|es Hnd Hsubs]; subst.
  - inversion Hc' as [name' c0 es' Hin'|name' sub' es' rel' c0 Hin' Hsub']; subst.
    + by eapply NoDup_fst_functional.
    + by apply child_at_nonempty in Hsub'.
  - inversion Hc' as [name' c0 es' Hin'|name' sub' es' rel' c0 Hin' Hsub']; subst.
    + by apply child_at_nonempty in Hsub.
    + assert (sub' = sub) as -> by by eapply NoDup_fst_functional.
      apply IH; [by eapply Hsubs|done].
Qed.

(** In a tree with distinct names nothing lies below a regular file. *)
Lemma child_at_not_below_file rel d n :
  child_at rel (File d) n → distinct_names n →
  ∀ x more c, ¬ child_at (rel ++ x :: more) c n.
Proof.
  remember (File d) as f eqn:Hf.
  induction 1 as [name c0 entries Hin|name sub entries rel c0 Hin Hsub IH];
    intros Hdn x more c Hc; inversion Hdn as [|es Hnd Hsubs]; subst.
  - inversion Hc as [|name' sub' es' rel' c1 Hin' Hsub']; subst.
    assert (sub' = File d) as -> by by eapply NoDup_fst_functional.
    by apply child_at_file in Hsub'.
  - inversion Hc as [name' c1 es' Hin' Heq|name' sub' es' rel' c1 Hin' Hsub']; subst.
    + by destruct rel.
    + assert (sub' = sub) as -> by by eapply NoDup_fst_functional.
      eapply IH; [done|by eapply Hsubs|exact Hsub'].
Qed.

Lemma copy2_plain E name d dst m m2 :
  m !! dst ≠ Some D →
  copy2 E name d dst m = (Ret tt, m2) →
  m2 = <[dst := F d]> m.
Proof.
  intros Hdst [[[e [=]] _]|(wrote & _ & -> & Hwrote)]%copy2_cases.
  rewrite (Hwrote eq_refl). unfold destination.
  by destruct (m !! dst) as [[]|].
Qed.

Section Places.
Context (E : env) (target : list string).

(** A loop that went through, over a listing whose files have one
    content per path, none lying under another, into a host where none
    of their destinations is a directory: every file of the listing is
    at its destination, and the files the listing does not rewrite
    differently are kept. *)
Lemma copy_files_places items : ∀ m copied r M,
  copy_files E target items m copied = (Ret r, M) →
  (∀ rel d, (rel, File d) ∈ items → m !! (target ++ rel) ≠ Some D) →
  (∀ rel d rel' d', (rel, File d) ∈ items → (rel', File d') ∈ items →
     ¬ (target ++ rel) `prefix_of` parent (target ++ rel')) →
  (∀ rel d d', (rel, File d) ∈ items → (rel, File d') ∈ items → d = d') →
  (∀ k d, m !! k = Some (F d) →
     (∀ rel d', (rel, File d') ∈ items → k = target ++ rel → d' = d) →
     M !! k = Some (F d)) ∧
  (∀ rel d, (rel, File d) ∈ items → M !! (target ++ rel) = Some (F d)).
Proof.
  induction items as [|[rel0 [d0|entries]] items IH];
    intros m copied r M Hrun Hdir Habove Hfun; simpl in Hrun.
  - injection Hrun as _ <-. split; [done|]. by intros rel d ?%elem_of_nil.
  - destruct (mkdir_p E _ m) as [[[]|e] m1] eqn:Hmk; [|done].
    destruct (copy2 E _ d0 _ m1) as [[[]|e] m2] eqn:Hcp; [|done].
    pose proof (mkdir_p_lookup _ _ _ _ _ Hmk) as Hm1.
    assert (Hhere : (rel0, File d0) ∈ (rel0, File d0) :: items)
      by apply list_elem_of_here.
    assert (Hplain : m1 !! (target ++ rel0) ≠ Some D).
    { destruct (Hm1 (target ++ rel0)) as [->|(_ & _ & Hpre)]; [by eapply Hdir|].
      by destruct (Habove rel0 d0 rel0 d0). }
    apply (copy2_plain _ _ _ _ _ _ Hplain) in Hcp as ->.
    destruct (IH _ _ _ _ Hrun) as [HP HQ].
    { intros rel d Hin. destruct (decide (target ++ rel = target ++ rel0)) as [->|Hne].
      - by rewrite lookup_insert_eq.
      - rewrite lookup_insert_ne by done.
        destruct (Hm1 (target ++ rel)) as [->|(_ & _ & Hpre)].
        + eapply Hdir. by apply list_elem_of_further.
        + destruct (Habove rel d rel0 d0); [by apply list_elem_of_further|done|done]. }
    { intros rel d rel' d' Hin Hin'.
      apply Habove with d d'; by apply list_elem_of_further. }
    { intros rel d d' Hin Hin'. apply (Hfun rel); by apply list_elem_of_further. }
    split.
    + intros k d Hk Hcond. apply HP.
      * destruct (decide (k = target ++ rel0)) as [->|Hne].
        -- rewrite lookup_insert_eq. by rewrite (Hcond rel0 d0 Hhere eq_refl).
        -- rewrite lookup_insert_ne by done.
           destruct (Hm1 k) as [->|(Hn & _)]; congruence.
      * intros rel d' Hin. apply Hcond. by apply list_elem_of_further.
    + intros rel d [[= -> ->]|Hin]%elem_of_cons; [|by apply HQ].
      apply HP; [apply lookup_insert_eq|].
      intros rel d' Hin Heq%app_inv_head. subst rel.
      apply (Hfun rel0); [by apply list_elem_of_further|done].
  - destruct (IH _ _ _ _ Hrun) as [HP HQ].
    { intros rel d Hin. eapply Hdir. by apply list_elem_of_further. }
    { intros rel d rel' d' Hin Hin'.
      apply Habove with d d'; by apply list_elem_of_further. }
    { intros rel d d' Hin Hin'. apply (Hfun rel); by apply list_elem_of_further. }
    split.
    + intros k d Hk Hcond. apply HP; [done|].
      intros rel d' Hin. apply Hcond. by apply list_elem_of_further.
    + intros rel d [[=]|Hin]%elem_of_cons. by apply HQ.
Qed.
End Places.

Lemma app_prefix_self_nil {A : Type} (l r : list A) : l ++ r `prefix_of` l → r = [].
Proof.
  intros Hpre%prefix_length. rewrite length_app in Hpre.
  destruct r; [done|]. simpl in Hpre. lia.
Qed.

Lemma prefix_removelast_split {A : Type} (l l' : list A) :
  l' ≠ [] → l `prefix_of` removelast l' → ∃ x more, l' = l ++ x :: more.
Proof.
  intros Hne [k Hk]. destruct l' as [|a l' _] using rev_ind; [done|].
  rewrite removelast_last in Hk. subst l'. rewrite <- app_assoc.
  destruct k as [|y k]; simpl; eauto.
Qed.

(** X14: after a successful call over a template whose directories
    have pairwise distinct names, into a host where no destination of a
    template file was a directory, every regular file of the template is
    in the target at its relative path, with the bytes and the metadata
    it has in the clone. *)
Theorem use_template_places_files (E : env) (template_name current_folder : string)
    (w w' : world) (v : value) (target_path : list string) (tree : node)
    (entries : list (string * node)) :
  use_template E template_name current_folder w = (Ret v, w') →
  succeeded v →
  expand_absolute E current_folder = Ret target_path →
  clone_from E = Cloned tree →
  template_path E template_name tree = Some (Dir entries) →
  distinct_names (Dir entries) →
  (∀ rel, file_at rel (Dir entries) → fs w !! (target_path ++ rel) ≠ Some D) →
  ∀ rel d, child_at rel (File d) (Dir entries) →
           fs w' !! (target_path ++ rel) = Some (F d).
Proof.
  intros Hrun Hok Hexp Hclone Htpl Hdn Hfree rel d Hrel.
  destruct (use_template_success_inv _ _ _ _ _ _ Hrun Hok)
    as (target' & m & response & tree' & entries' & copied & M & _ & _
        & Hexp' & Hmk & _ & _ & _ & Hclone' & Htpl' & Hcopy & _ & <- & _).
  rewrite Hexp in Hexp'. injection Hexp' as <-.
  rewrite Hclone in Hclone'. injection Hclone' as <-.
  rewrite Htpl in Htpl'. injection Htpl' as <-.
  destruct (copy_files_places E target_path _ _ _ _ _ Hcopy) as [_ HQ].
  - intros rel1 d1 Hin%rglob_star_child_at.
    destruct (mkdir_p_lookup _ _ _ _ _ Hmk (target_path ++ rel1))
      as [->|(_ & _ & Hpre)]; [apply Hfree; by exists d1|].
    apply app_prefix_self_nil in Hpre as ->. by apply child_at_nonempty in Hin.
  - intros rel1 d1 rel2 d2 Hin1%rglob_star_child_at Hin2%rglob_star_child_at Hpre.
    assert (Hne : rel2 ≠ []) by (intros ->; by apply child_at_nonempty in Hin2).
    unfold parent in Hpre. rewrite removelast_app in Hpre by done.
    apply prefix_app_inv in Hpre.
    destruct (prefix_removelast_split _ _ Hne Hpre) as (x & more & ->).
    exact (child_at_not_below_file _ _ _ Hin1 Hdn _ _ _ Hin2).
  - intros rel1 d1 d2 Hin1%rglob_star_child_at Hin2%rglob_star_child_at.
    pose proof (child_at_functional _ _ _ Hin1 Hdn _ Hin2). congruence.
  - apply HQ. by apply rglob_star_child_at.
Qed.

Lemma use_template_places_files_witness :
  fs (snd (use_template (sample_env Posix posix_target) "fastapi-starter" "/tmp/proj"
             sample_world)) !! (posix_target ++ ["app"; "routes.py"])
  = Some (F (MkFile (String.list_byte_of_string "routes = []") 420 1700000000)).
Proof.
  apply (use_template_places_files (sample_env Posix posix_target) "fastapi-starter"
           "/tmp/proj" sample_world _
           (copied_result Posix "fastapi-starter" posix_target
              ["main.py"; "app/routes.py"])
           posix_target sample_repo
           [("main.py", sample_file "import app");
            ("app", Dir [("routes.py", sample_file "routes = []")])]).
  - vm_compute. reflexivity.
  - reflexivity.
  - reflexivity.
  - reflexivity.
  - reflexivity.
  - constructor.
    + apply (bool_decide_unpack _). vm_compute. reflexivity.
    + intros name c [[= -> ->]|Hin]%elem_of_cons; [constructor|].
      apply list_elem_of_singleton in Hin. injection Hin as -> ->.
      constructor.
      * apply (bool_decide_unpack _). vm_compute. reflexivity.
      * intros name c [= -> ->]%list_elem_of_singleton. constructor.
  - intros rel _. unfold sample_world, posix_target. simpl.
    rewrite lookup_insert_ne by discriminate.
    by rewrite lookup_singleton_ne by discriminate.
  - eapply child_below; [|apply child_here].
    + apply list_elem_of_further, list_elem_of_here.
    + apply list_elem_of_here.
Defined.

Lemma copy_files_no_files E target items : ∀ m copied,
  files_of_listing items = [] →
  copy_files E target items m copied = (Ret copied, m).
Proof.
  induction items as [|[rel [d|entries]] items IH]; intros m copied Hnone; simpl;
    [done|done|].
  by apply IH.
Qed.

(** X16: a template that holds no regular file, only directories, is
    used with success, zero files copied, and none of its directories is
    made in the target: the host is as [mkdir] of the target left it. *)
Theorem use_template_hollow_template (E : env) (template_name current_folder : string)
    (w : world) (target_path : list string) (m : gmap (list string) entry)
    (response : response) (tree : node) (entries : list (string * node)) :
  template_name ≠ "" →
  current_folder ≠ "" →
  expand_absolute E current_folder = Ret target_path →
  mkdir_p E target_path (fs w) = (Ret tt, m) →
  http_get E (GITHUB_API_URL +:+ "/contents/" +:+ template_name) = Ret response →
  status_code response = 200 →
  mkdtemp_fault E = None →
  clone_from E = Cloned tree →
  template_path E template_name tree = Some (Dir entries) →
  (∀ rel, ¬ file_at rel (Dir entries)) →
  ∃ w', use_template E template_name current_folder w
        = (Ret (copied_result (host E) template_name target_path []), w') ∧
        fs w' = m ∧ workspace w' = None.
Proof.
  intros Hname Hfolder Hexp Hmk Hget H200 Htmp Hclone Htpl Hnone.
  eapply use_template_success_intro; try done.
  apply copy_files_no_files. rewrite rglob_star_depth_first.
  destruct (files_of_listing _) as [|rel rest] eqn:Hfiles; [done|].
  destruct (Hnone rel). apply files_of_listing_file_at. rewrite Hfiles.
  apply list_elem_of_here.
Qed.

Lemma use_template_hollow_template_witness :
  ∃ w', use_template
          (posix_env (λ _, Ret (MkResponse 200 (Ret (VList [])))) (λ _, Ret posix_target)
             (Cloned hollow_repo))
          "skeleton" "/tmp/proj" sample_world
        = (Ret (copied_result
                  (host (posix_env (λ _, Ret (MkResponse 200 (Ret (VList []))))
                           (λ _, Ret posix_target) (Cloned hollow_repo)))
                  "skeleton" posix_target []), w') ∧
        fs w' = <[ posix_target := D ]> (fs sample_world) ∧ workspace w' = None.
Proof.
  apply (use_template_hollow_template
           (posix_env (λ _, Ret (MkResponse 200 (Ret (VList [])))) (λ _, Ret posix_target)
              (Cloned hollow_repo))
           "skeleton" "/tmp/proj" sample_world posix_target
           (<[ posix_target := D ]> (fs sample_world))
           (MkResponse 200 (Ret (VList []))) hollow_repo
           [("src", Dir []); ("docs", Dir [("img", Dir [])])]).
  - discriminate.
  - discriminate.
  - reflexivity.
  - vm_compute. reflexivity.
  - reflexivity.
  - reflexivity.
  - reflexivity.
  - reflexivity.
  - reflexivity.
  - intros rel Hfile%files_of_listing_file_at. by apply elem_of_nil in Hfile.
Defined.

(** * Repeated and failed calls *)

(** ** Where the files of a template land *)

(** Over items of a tree with distinct names, into a host where none of
    their destinations was a directory before the target was made: a
    loop that went through has put every file at its relative path. *)
Lemma listed_files_placed E target tpl items m0 r0 m copied r m1 :
  mkdir_p E target m0 = (r0, m) →
  (∀ rel c, (rel, c) ∈ items → child_at rel c tpl) →
  copy_files E target items m copied = (Ret r, m1) →
  distinct_names tpl →
  (∀ rel, file_at rel tpl → m0 !! (target ++ rel) ≠ Some D) →
  ∀ rel d, (rel, File d) ∈ items → m1 !! (target ++ rel) = Some (F d).
Proof.
  intros Hmk Hitems Hcopy Hdn Hfree.
  destruct (copy_files_places E target _ _ _ _ _ Hcopy) as [_ HQ]; [| | |exact HQ].
  - intros rel d Hin%Hitems.
    destruct (mkdir_p_lookup _ _ _ _ _ Hmk (target ++ rel))
      as [->|(_ & _ & Hpre)]; [apply Hfree; by exists d|].
    apply app_prefix_self_nil in Hpre as ->. by apply child_at_nonempty in Hin.
  - intros rel1 d1 rel2 d2 Hin1%Hitems Hin2%Hitems Hpre.
    assert (Hne : rel2 ≠ []) by (intros ->; by apply child_at_nonempty in Hin2).
    unfold parent in Hpre. rewrite removelast_app in Hpre by done.
    apply prefix_app_inv in Hpre.
    destruct (prefix_removelast_split _ _ Hne Hpre) as (x & more & ->).
    exact (child_at_not_below_file _ _ _ Hin1 Hdn _ _ _ Hin2).
  - intros rel d1 d2 Hin1%Hitems Hin2%Hitems.
    pose proof (child_at_functional _ _ _ Hin1 Hdn _ Hin2). congruence.
Qed.

(** ** A second call *)



Section Replay.
Context (E : env) (target_path : list string).


End Replay.




(** ** A call that fails *)

(** A loop that raises stopped at a file: the items before it were
    handled normally, and the failing step touched nothing but
    directories it made and the destination of that file. *)
Lemma copy_files_raise_inv E target_path items : ∀ m copied e M,
  copy_files E target_path items m copied = (Raise e, M) →
  ∃ done rel d rest copied1 m1,
    items = done ++ (rel, File d) :: rest ∧
    copy_files E target_path done m copied = (Ret copied1, m1) ∧
    ∀ k, M !! k = m1 !! k ∨ (m1 !! k = None ∧ M !! k = Some D) ∨
         k = target_path ++ rel ∨ k = (target_path ++ rel) ++ [basename rel].
Proof.
  induction items as [|[rel [d|entries]] items IH]; intros m copied e M Hrun;
    simpl in Hrun; [done| |].
  - destruct (mkdir_p E _ m) as [[[]|e1] m1] eqn:Hmk.
    + destruct (copy2 E _ d _ m1) as [[[]|e2] m2] eqn:Hcp.
      * apply IH in Hrun as (done & rel' & d' & rest & copied1 & m3 & -> & Hdone & Hnear).
        exists ((rel, File d) :: done), rel', d', rest, copied1, m3.
        split_and!; [done| |done]. simpl. by rewrite Hmk, Hcp.
      * injection Hrun as _ <-.
        exists [], rel, d, items, copied, m. split_and!; [done|done|].
        intros k. destruct (copy2_lookup _ _ _ _ _ _ _ Hcp k) as [->|[?|?]]; [|auto|auto].
        destruct (mkdir_p_lookup _ _ _ _ _ Hmk k) as [?|(Hn & HD & _)]; auto.
    + injection Hrun as _ <-.
      exists [], rel, d, items, copied, m. split_and!; [done|done|].
      intros k. destruct (mkdir_p_lookup _ _ _ _ _ Hmk k) as [?|(Hn & HD & _)]; auto.
  - apply IH in Hrun as (done & rel' & d' & rest & copied1 & m3 & -> & Hdone & Hnear).
    by exists ((rel, Dir entries) :: done), rel', d', rest, copied1, m3.
Qed.

(** C1 (amended), in two parts tied to the cause of the failure.
    A call that fails without the copy loop having raised (validation,
    path expansion or directory creation, the existence check, the
    workspace, the clone, a template missing from the clone) leaves the
    host with exactly the files it had.
    A call whose copy loop raises fails with that error and keeps what
    the loop did: the listing splits at the file whose copy failed, the
    items before it were copied, and every file present once they were
    copied is still there, but for the destination of the failing file,
    which may be left partly written.  Nothing is rolled back: where the
    template has distinct names and no destination was a directory, each
    file listed before the failing one is in the target at its path with
    the template's bytes and metadata. *)
Theorem failed_use_template_leaves (E : env) (template_name current_folder : string)
    (w : world) :
  ((∃ msg, fst (use_template E template_name current_folder w) = Ret (failure msg)) →
   (∀ target_path entries e M,
      ¬ copy_raised E template_name current_folder w target_path entries e M) →
   same_files (fs w) (fs (snd (use_template E template_name current_folder w)))) ∧
  (∀ target_path entries e M,
     copy_raised E template_name current_folder w target_path entries e M →
     fst (use_template E template_name current_folder w) = Ret (failure (exn_str e)) ∧
     fs (snd (use_template E template_name current_folder w)) = M ∧
     ∃ done rel d rest copied m m1,
       mkdir_p E target_path (fs w) = (Ret tt, m) ∧
       rglob_star (Dir entries) = done ++ (rel, File d) :: rest ∧
       copy_files E target_path done m [] = (Ret copied, m1) ∧
       (∀ k d', m1 !! k = Some (F d') →
                k ≠ target_path ++ rel →
                k ≠ (target_path ++ rel) ++ [basename rel] →
                M !! k = Some (F d')) ∧
       (distinct_names (Dir entries) →
        (∀ rel', file_at rel' (Dir entries) →
                 fs w !! (target_path ++ rel') ≠ Some D) →
        ∀ rel' d', (rel', File d') ∈ done → rel' ≠ rel →
                   M !! (target_path ++ rel') = Some (F d'))).
Proof.
  split.
  - intros [msg Hfail] Hnot. rewrite use_template_snd.
    revert Hfail. unfold use_template.
    destruct (use_template_body E template_name current_folder w) as [r w'] eqn:Hbody.
    intros Hfail. simpl. revert Hbody. unfold use_template_body.
    assert (Hsame : same_files (fs w) (fs w)) by by intros q d.
    destruct (String.eqb_spec template_name "") as [|Hname]; [by intros [= _ <-]|].
    destruct (String.eqb_spec current_folder "") as [|Hfolder]; [by intros [= _ <-]|].
    destruct (expand_absolute E current_folder) as [target_path|e] eqn:Hexp;
      [|by intros [= _ <-]].
    destruct (mkdir_p E target_path (fs w)) as [r0 m] eqn:Hmk.
    assert (Hm : same_files (fs w) m).
    { eapply only_dirs_same_files, mkdir_p_lookup, Hmk. }
    destruct r0 as [[]|e]; [|by intros [= _ <-]].
    destruct (http_get E _) as [response|e] eqn:Hget; [|by intros [= _ <-]].
    destruct (status_code response =? 404); [by intros [= _ <-]|].
    destruct (Z.eqb_spec (status_code response) 200) as [H200|_]; simpl;
      [|by intros [= _ <-]].
    unfold with_temporary_directory.
    destruct (mkdtemp_fault E) eqn:Htmp; [by intros [= _ <-]|].
    unfold clone_and_copy.
    destruct (clone_from E) as [tree|partial e] eqn:Hclone; [|by intros [= _ <-]].
    destruct (template_path E template_name tree) as [[d|entries]|] eqn:Htpl;
      try by intros [= _ <-].
    simpl. destruct (copy_files _ _ _ _ _) as [[copied|e] M] eqn:Hcopy.
    + intros [= <- <-]. simpl in Hfail. discriminate Hfail.
    + destruct (Hnot target_path entries e M). by exists m, response, tree.
  - intros target_path entries e M
      (m & response & tree & Hname%String.eqb_neq & Hfolder%String.eqb_neq & Hexp & Hmk
       & Hget & H200 & Htmp & Hclone & Htpl & Hcopy).
    assert (Hrun : use_template E template_name current_folder w
                   = (Ret (failure (exn_str e)),
                      set_workspace None
                        (set_fs M
                           (set_workspace (Some tree)
                              (log (GitClone GITHUB_REPO_URL 1)
                                 (set_workspace (Some (Dir []))
                                    (log (HttpGet (GITHUB_API_URL +:+ "/contents/"
                                                   +:+ template_name))
                                       (set_fs m w)))))))).
    { unfold use_template, use_template_body, with_temporary_directory, clone_and_copy.
      rewrite Hname, Hfolder, Hexp, Hmk, Hget, H200, Htmp, Hclone, Htpl. simpl.
      by rewrite Hcopy. }
    rewrite Hrun. split_and!; [done|done|].
    destruct (copy_files_raise_inv _ _ _ _ _ _ _ Hcopy)
      as (done & rel & d & rest & copied & m1 & Hitems & Hdone & Hnear).
    exists done, rel, d, rest, copied, m, m1. split_and!; [done|done|done| |].
    + intros k d' Hk Hne1 Hne2.
      destruct (Hnear k) as [->|[(Hn & _)|[?|?]]]; [done|congruence|done|done].
    + intros Hdn Hfree rel' d' Hin Hne.
      assert (Hsub : ∀ r c, (r, c) ∈ done → child_at r c (Dir entries)).
      { intros r c Hrc. apply rglob_star_child_at. rewrite Hitems.
        apply elem_of_app. by left. }
      assert (Hrel : child_at rel (File d) (Dir entries)).
      { apply rglob_star_child_at. rewrite Hitems.
        apply elem_of_app. right. apply list_elem_of_here. }
      pose proof (listed_files_placed E target_path (Dir entries) done (fs w) (Ret tt) m
                    [] copied m1 Hmk Hsub Hdone Hdn Hfree rel' d' Hin) as Hplaced.
      destruct (Hnear (target_path ++ rel')) as [->|[(Hn & _)|[Heq|Heq]]];
        [done|congruence| |].
      * apply app_inv_head in Heq. done.
      * rewrite <- app_assoc in Heq. apply app_inv_head in Heq. subst rel'.
        destruct (child_at_not_below_file _ _ _ Hrel Hdn (basename rel) [] (File d')).
        by apply Hsub.
Qed.

Lemma failed_use_template_leaves_witness :
  fst (use_template (sample_env Posix posix_target) "fastapi-starter" "/tmp/proj"
         blocked_world)
  = Ret (failure (exn_str (MkExn OSError "[Errno] /tmp/proj/app"))) ∧
  fs (snd (use_template (sample_env Posix posix_target) "fastapi-starter" "/tmp/proj"
             blocked_world))
  = <[ ["/"; "tmp"; "proj"; "main.py"]
         := F (MkFile (String.list_byte_of_string "import app") 420 1700000000) ]>
      (fs blocked_world) ∧
  ∃ done rel d rest copied m m1,
    mkdir_p (sample_env Posix posix_target) posix_target (fs blocked_world)
    = (Ret tt, m) ∧
    rglob_star (Dir [("main.py", sample_file "import app");
                     ("app", Dir [("routes.py", sample_file "routes = []")])])
    = done ++ (rel, File d) :: rest ∧
    copy_files (sample_env Posix posix_target) posix_target done m [] = (Ret copied, m1) ∧
    (∀ k d', m1 !! k = Some (F d') →
             k ≠ posix_target ++ rel →
             k ≠ (posix_target ++ rel) ++ [basename rel] →
             <[ ["/"; "tmp"; "proj"; "main.py"]
                  := F (MkFile (String.list_byte_of_string "import app") 420 1700000000) ]>
               (fs blocked_world) !! k = Some (F d')) ∧
    (distinct_names (Dir [("main.py", sample_file "import app");
                          ("app", Dir [("routes.py", sample_file "routes = []")])]) →
     (∀ rel', file_at rel' (Dir [("main.py", sample_file "import app");
                                 ("app", Dir [("routes.py", sample_file "routes = []")])]) →
              fs blocked_world !! (posix_target ++ rel') ≠ Some D) →
     ∀ rel' d', (rel', File d') ∈ done → rel' ≠ rel →
                <[ ["/"; "tmp"; "proj"; "main.py"]
                     := F (MkFile (String.list_byte_of_string "import app") 420
                             1700000000) ]>
                  (fs blocked_world) !! (posix_target ++ rel') = Some (F d')).
Proof.
  apply (proj2 (failed_use_template_leaves (sample_env Posix posix_target)
                  "fastapi-starter" "/tmp/proj" blocked_world)
           posix_target
           [("main.py", sample_file "import app");
            ("app", Dir [("routes.py", sample_file "routes = []")])]
           (MkExn OSError "[Errno] /tmp/proj/app")).
  exists (fs blocked_world), (MkResponse 200 (Ret (VList []))), sample_repo.
  split_and!; [discriminate|discriminate|reflexivity| |reflexivity|reflexivity
              |reflexivity|reflexivity|reflexivity| ].
  - vm_compute. reflexivity.
  - vm_compute. reflexivity.
Defined.
